(** * RBAC permission compiler and access evaluator

    A shallow embedding of [src/utils/rbacUtils.ts] ([hasPermission]) and of
    [src/store/slices/rbacSlice.ts] ([transformToUserPermissions]), with the
    record types of [src/types/rbac.types.ts], followed by the properties
    proved about them; then the other exports of [rbacUtils.ts], the guard
    component, the permission hooks, [buildResourceHierarchy] and the
    reducer of the slice, with theirs. *)

From Stdlib Require Import String Ascii List Bool ZArith Lia DecimalString.
From Stdlib Require Import Permutation.
Import ListNotations.
Open Scope string_scope.
Set Warnings "-register-all".

(** ** The fragment of JavaScript the code relies on *)

Module Js.

(** What a call can do: return a value or throw. *)
Inductive error : Type := TypeError | SyntaxError.

Inductive completion (A : Type) : Type :=
| Return (a : A)
| Throw (e : error).
Arguments Return {A} a.
Arguments Throw {A} e.

Definition bind {A B} (c : completion A) (k : A -> completion B) : completion B :=
  match c with
  | Return a => k a
  | Throw e => Throw e
  end.

(** The values [JSON.parse] produces; [UserPermission.metadata] is declared
    [any] and is filled with such a value.  [undefined] is the [None] of an
    [option value].  Of a number the code only ever tests whether it is
    zero, so the integers stand for all numbers. *)
Inductive value : Type :=
| Null
| Boolean (b : bool)
| Num (z : Z)
| Str (s : string)
| Arr (xs : list value)
| Obj (fields : list (string * value)).

(** [ToBoolean]. *)
Definition truthy (v : value) : bool :=
  match v with
  | Null => false
  | Boolean b => b
  | Num z => negb (z =? 0)%Z
  | Str s => negb (s =? "")
  | Arr _ | Obj _ => true
  end.

(** Truthiness of an optional string ([undefined] and [""] are falsy). *)
Definition truthy_str (o : option string) : bool :=
  match o with
  | Some s => negb (s =? "")
  | None => false
  end.

(** Truthiness of an optional boolean. *)
Definition truthy_bool (o : option bool) : bool :=
  match o with
  | Some b => b
  | None => false
  end.

(** [a || b] on optional strings. *)
Definition or_else (a b : option string) : option string :=
  if truthy_str a then a else b.

(** Own property of an object, by key. *)
Fixpoint field (k : string) (fields : list (string * value)) : option value :=
  match fields with
  | [] => None
  | (k', v) :: rest => if k' =? k then Some v else field k rest
  end.

Definition index_name (i : nat) : string :=
  NilEmpty.string_of_uint (Nat.to_uint i).

(** Element of an array whose index, written in decimal, is the key. *)
Fixpoint element (k : string) (i : nat) (xs : list value) : option value :=
  match xs with
  | [] => None
  | x :: rest => if index_name i =? k then Some x else element k (S i) rest
  end.

(** [v[k]], for a [v] that is neither [null] nor [undefined].  Properties
    inherited from the built-in prototypes ([length], the methods) are read
    as [undefined]: the code only tests such a result for truthiness and
    then reads [restrictedActions] and [allowedActions] on it, which no
    built-in defines, so it takes the same branches either way.  For the
    same reason the characters of a string are not modelled. *)
Definition get (v : value) (k : string) : option value :=
  match v with
  | Obj fields => field k fields
  | Arr xs => element k 0 xs
  | _ => None
  end.

(** [o?.k]. *)
Definition get_opt (o : option value) (k : string) : option value :=
  match o with
  | None | Some Null => None
  | Some v => get v k
  end.

(** [Array.prototype.includes] on a [string[]]. *)
Definition includes (l : list string) (x : string) : bool :=
  existsb (String.eqb x) l.

(** [String.prototype.includes]: [x] occurs in [s]. *)
Fixpoint occurs (x s : string) : bool :=
  prefix x s ||
  match s with
  | EmptyString => false
  | String _ rest => occurs x rest
  end.

Definition is_string (x : string) (v : value) : bool :=
  match v with
  | Str s => s =? x
  | _ => false
  end.

(** [v.includes(x)] for a [v] that is neither [null] nor [undefined]:
    arrays and strings have the method, on anything else the call is a
    [TypeError]. *)
Definition includes_dyn (v : value) (x : string) : completion bool :=
  match v with
  | Arr xs => Return (existsb (is_string x) xs)
  | Str s => Return (occurs x s)
  | _ => Throw TypeError
  end.

(** [s.startsWith(p)]. *)
Definition startsWith (s p : string) : bool := prefix p s.

(** [s.split(sep)] for a one-character separator. *)
Fixpoint split (sep : ascii) (s : string) : list string :=
  match s with
  | EmptyString => [""]
  | String c rest =>
      if Ascii.eqb c sep then "" :: split sep rest
      else match split sep rest with
           | h :: t => String c h :: t
           | [] => [String c ""]
           end
  end.

(** [l.join(sep)]. *)
Fixpoint join (sep : string) (l : list string) : string :=
  match l with
  | [] => ""
  | [x] => x
  | x :: rest => x ++ sep ++ join sep rest
  end.

(** [l.filter(Boolean)] on strings. *)
Definition nonempty (l : list string) : list string :=
  filter (fun s => negb (s =? "")) l.

End Js.

Import Js.

(** ** Types ([rbac.types.ts]) *)

Record Resource : Type := {
  ResourceId : Z;
  ResourcePath : string;
  ResourceName : string;
  ResourceType : string;
  HierarchyLevel : Z;
  ParentResourceId : option Z
}.

Record Action : Type := {
  ActionId : Z;
  ActionName : string   (* the field [Action] *)
}.

Record PermissionMatrix : Type := {
  PermissionId : Z;
  pmRoleId : Z;
  pmResourceId : Z;
  pmActionId : Z;
  IsActive : bool;
  ValidFrom : option string;
  ValidTo : option string;
  IsOverride : option bool;
  Metadata : option string
}.

Record UserPermission : Type := {
  resourcePath : string;
  resourceId : Z;
  actions : list string;
  isActive : bool;
  isOverride : option bool;
  hierarchyLevel : Z;
  validFrom : option string;
  validTo : option string;
  metadata : option value
}.

Record PermissionCheckParams : Type := {
  pResourcePath : string;
  pAction : string;
  pWorkflowStage : option string
}.

(** ** The access evaluator ([rbacUtils.ts]) *)

(** [userPermissions.find(permission => permission.resourcePath === path)]. *)
Definition findByPath (userPermissions : list UserPermission) (path : string)
  : option UserPermission :=
  find (fun permission => resourcePath permission =? path) userPermissions.

(** What the workflow block (lines 34-44, and again 73-83) does: it returns
    [false] from [hasPermission], falls through, or throws. *)
Inductive verdict : Type := Blocked | Pass | Raise.

(** [restrictions.restrictedActions?.includes(action)], then
    [restrictions.allowedActions && !restrictions.allowedActions.includes(action)]. *)
Definition checkRestrictions (restrictions : value) (action : string) : verdict :=
  match
    match get restrictions "restrictedActions" with
    | None | Some Null => Return false
    | Some ra => includes_dyn ra action
    end
  with
  | Throw _ => Raise
  | Return true => Blocked
  | Return false =>
      match get restrictions "allowedActions" with
      | Some aa =>
          if truthy aa then
            match includes_dyn aa action with
            | Throw _ => Raise
            | Return true => Pass
            | Return false => Blocked
            end
          else Pass
      | None => Pass
      end
  end.

(** [if (currentStage && p.metadata?.workflowRestrictions) { ... }]. *)
Definition workflowCheck (p : UserPermission) (currentStage : option string)
    (action : string) : verdict :=
  match currentStage with
  | Some stage =>
      if negb (stage =? "") then
        match get_opt (metadata p) "workflowRestrictions" with
        | Some wr =>
            if truthy wr then
              match get wr stage with
              | Some restrictions =>
                  if truthy restrictions then checkRestrictions restrictions action
                  else Pass
              | None => Pass
              end
            else Pass
        | None => Pass
        end
      else Pass
  | None => Pass
  end.

(** [resourcePath.split('/').filter(Boolean)]. *)
Definition pathSegments (path : string) : list string :=
  nonempty (split "/" path).

(** ['/' + pathSegments.slice(0, i + 1).join('/')]. *)
Definition parentPath (segments : list string) (i : nat) : string :=
  "/" ++ join "/" (firstn (i + 1) segments).

(** The [some] of lines 61-66. *)
Definition hasOverride (userPermissions : list UserPermission)
    (path action : string) : bool :=
  existsb (fun permission =>
             startsWith (resourcePath permission) path
             && truthy_bool (isOverride permission)
             && negb (includes (actions permission) action))
          userPermissions.

(** The loop of lines 53-87; [n] is [i + 1], so [climb ... (length segments)]
    is the whole loop and [climb ... 0] the code after it. *)
Fixpoint climb (userPermissions : list UserPermission) (path action : string)
    (currentStage : option string) (segments : list string) (n : nat)
  : completion bool :=
  match n with
  | O => Return false
  | S i =>
      let continue := climb userPermissions path action currentStage segments i in
      match findByPath userPermissions (parentPath segments i) with
      | Some parentPermission =>
          if includes (actions parentPermission) action then
            if hasOverride userPermissions path action then Return false
            else match workflowCheck parentPermission currentStage action with
                 | Raise => Throw TypeError
                 | Blocked => Return false
                 | Pass => Return true
                 end
          else continue
      | None => continue
      end
  end.

Definition hasPermission (userPermissions : list UserPermission)
    (params : PermissionCheckParams) (workflowStage : option string)
  : completion bool :=
  let path := pResourcePath params in
  let action := pAction params in
  let currentStage := or_else (pWorkflowStage params) workflowStage in
  match findByPath userPermissions path with
  | Some exactMatch =>
      let hasAction := includes (actions exactMatch) action in
      if truthy_bool (isOverride exactMatch) then Return hasAction
      else match workflowCheck exactMatch currentStage action with
           | Raise => Throw TypeError
           | Blocked => Return false
           | Pass => Return hasAction
           end
  | None =>
      let segments := pathSegments path in
      climb userPermissions path action currentStage segments (length segments)
  end.

(** Entries as object literals are written, absent fields left out. *)
Definition entry (path : string) (acts : list string) (override : option bool)
    (meta : option value) : UserPermission :=
  {| resourcePath := path; resourceId := 0; actions := acts; isActive := true;
     isOverride := override; hierarchyLevel := 0; validFrom := None;
     validTo := None; metadata := meta |}.

Definition request (path action : string) (stage : option string)
  : PermissionCheckParams :=
  {| pResourcePath := path; pAction := action; pWorkflowStage := stage |}.

Definition strings (l : list string) : value := Arr (map Str l).

(** The entry the loop of lines 53-87 stops at: the most specific ancestor
    path at which [find] yields an entry that lists the action. *)
Fixpoint grantingAncestor (userPermissions : list UserPermission)
    (action : string) (segments : list string) (n : nat) : option UserPermission :=
  match n with
  | O => None
  | S i =>
      match findByPath userPermissions (parentPath segments i) with
      | Some parentPermission =>
          if includes (actions parentPermission) action then Some parentPermission
          else grantingAncestor userPermissions action segments i
      | None => grantingAncestor userPermissions action segments i
      end
  end.

(** How a verdict of the workflow block ends the call, [granted] being what
    is returned when the block falls through. *)
Definition conclude (v : verdict) (granted : bool) : completion bool :=
  match v with
  | Raise => Throw TypeError
  | Blocked => Return false
  | Pass => Return granted
  end.



(** Values on which [.includes] can be called. *)
Definition listLike (v : value) : bool :=
  match v with
  | Arr _ | Str _ => true
  | _ => false
  end.

(** A restriction value whose [restrictedActions] is absent, [null], an
    array or a string, and whose [allowedActions] is absent, falsy, an array
    or a string. *)
Definition restrictionsShaped (r : value) : bool :=
  match get r "restrictedActions" with
  | None | Some Null => true
  | Some ra => listLike ra
  end
  &&
  match get r "allowedActions" with
  | None => true
  | Some aa => negb (truthy aa) || listLike aa
  end.

(** Metadata all of whose restriction values, under [workflowRestrictions],
    are shaped so. *)
Definition metadataShaped (m : option value) : bool :=
  match get_opt m "workflowRestrictions" with
  | Some (Obj stages) => forallb (fun kv => restrictionsShaped (snd kv)) stages
  | Some (Arr xs) => forallb restrictionsShaped xs
  | _ => true
  end.

(** The request path as the fallback first looks it up. *)
Definition normalized (path : string) : string :=
  "/" ++ join "/" (pathSegments path).

(** A path segment: a non-empty string without a slash. *)
Fixpoint hasSlash (s : string) : bool :=
  match s with
  | EmptyString => false
  | String c rest => Ascii.eqb c "/" || hasSlash rest
  end.

Definition isSegment (s : string) : bool :=
  negb (s =? "") && negb (hasSlash s).

(** ** The permission compiler ([rbacSlice.ts]) *)

Section Compiler.

(** What the host provides: [new Date(s)] as milliseconds ([None] for an
    Invalid Date), the time [new Date()] of the call, and [JSON.parse]
    ([None] where it throws a [SyntaxError]).  The code reads the clock
    once per group; one call is short, so one instant stands for all. *)
Variable dateOf : string -> option Z.
Variable now : Z.
Variable jsonParse : string -> option value.

(** [new Map(resources.map(r => [r.ResourceId, r])).get(id)]: of two
    resources with one id the later replaced the earlier. *)
Definition resourceMap_get (resources : list Resource) (id : Z)
  : option Resource :=
  find (fun r => (ResourceId r =? id)%Z) (rev resources).

Definition actionMap_get (acts : list Action) (id : Z) : option Action :=
  find (fun a => (ActionId a =? id)%Z) (rev acts).

(** [permissionsByResource], a [Map] in insertion order. *)
Definition groups : Type := list (Z * list PermissionMatrix).

(** The body of the first [forEach] (lines 152-155): a new key is added at
    the end with the row, a known key has the row pushed to its array. *)
Fixpoint addToGroup (m : groups) (permission : PermissionMatrix) : groups :=
  match m with
  | [] => [(pmResourceId permission, [permission])]
  | (k, ps) :: rest =>
      if (k =? pmResourceId permission)%Z then (k, (ps ++ [permission])%list) :: rest
      else (k, ps) :: addToGroup rest permission
  end.

Definition groupByResource (rolePermissions : list PermissionMatrix) : groups :=
  fold_left addToGroup rolePermissions [].

(** [s && new Date(s) > now]; a comparison with an Invalid Date is false. *)
Definition startsLater (s : option string) : bool :=
  match s with
  | Some s =>
      negb (s =? "")
      && match dateOf s with Some t => (now <? t)%Z | None => false end
  | None => false
  end.

(** [s && new Date(s) < now]. *)
Definition endedEarlier (s : option string) : bool :=
  match s with
  | Some s =>
      negb (s =? "")
      && match dateOf s with Some t => (t <? now)%Z | None => false end
  | None => false
  end.

(** The predicate of lines 173-177. *)
Definition currentlyValid (p : PermissionMatrix) : bool :=
  if startsLater (ValidFrom p) then false
  else if endedEarlier (ValidTo p) then false
  else true.

(** [m ? JSON.parse(m) : undefined]. *)
Definition parseMetadata (m : option string) : completion (option value) :=
  match m with
  | Some s =>
      if negb (s =? "") then
        match jsonParse s with
        | Some v => Return (Some v)
        | None => Throw SyntaxError
        end
      else Return None
  | None => Return None
  end.

(** Lines 166-169. *)
Definition actionNames (acts : list Action) (permissions : list PermissionMatrix)
  : list string :=
  nonempty (map (fun p => match actionMap_get acts (pmActionId p) with
                          | Some a => ActionName a
                          | None => ""
                          end) permissions).

(** The callback of the second [forEach] (lines 159-193), the array
    [userPermissions] it pushes to passed along. *)
Definition compileGroup (resources : list Resource) (acts : list Action)
    (userPermissions : list UserPermission) (g : Z * list PermissionMatrix)
  : completion (list UserPermission) :=
  let (resourceId, permissions) := g in
  match resourceMap_get resources resourceId with
  | None => Return userPermissions
  | Some resource =>
      let names := actionNames acts permissions in
      let validPermissions := filter currentlyValid permissions in
      match validPermissions with
      | [] => Return userPermissions
      | firstPermission :: _ =>
          bind (parseMetadata (Metadata firstPermission)) (fun meta =>
          Return (userPermissions ++
                  [{| resourcePath := ResourcePath resource;
                      resourceId := ResourceId resource;
                      actions := names;
                      isActive := true;
                      isOverride := IsOverride firstPermission;
                      hierarchyLevel := HierarchyLevel resource;
                      validFrom := ValidFrom firstPermission;
                      validTo := ValidTo firstPermission;
                      metadata := meta |}])%list)
      end
  end.

Fixpoint forEachGroup (resources : list Resource) (acts : list Action)
    (gs : groups) (userPermissions : list UserPermission)
  : completion (list UserPermission) :=
  match gs with
  | [] => Return userPermissions
  | g :: rest =>
      bind (compileGroup resources acts userPermissions g)
           (forEachGroup resources acts rest)
  end.

Definition transformToUserPermissions (permissionMatrix : list PermissionMatrix)
    (resources : list Resource) (acts : list Action) (currentRoleId : option Z)
  : completion (list UserPermission) :=
  match currentRoleId with
  | None => Return []
  | Some role =>
      if (role =? 0)%Z then Return []
      else
        let rolePermissions :=
          filter (fun p => (pmRoleId p =? role)%Z && IsActive p) permissionMatrix in
        forEachGroup resources acts (groupByResource rolePermissions) []
  end.

End Compiler.

(** The rows of a (role, resource) pair: those of the matrix that carry the
    role and the resource and are active, in the order of the matrix. *)
Definition groupOf (permissionMatrix : list PermissionMatrix) (role resource : Z)
  : list PermissionMatrix :=
  filter (fun p => (pmResourceId p =? resource)%Z)
         (filter (fun p => (pmRoleId p =? role)%Z && IsActive p) permissionMatrix).

(** [permissionsByResource.get(k)], with no rows for an absent key. *)
Fixpoint rowsOf (k : Z) (m : groups) : list PermissionMatrix :=
  match m with
  | [] => []
  | (k', ps) :: rest => if (k' =? k)%Z then ps else rowsOf k rest
  end.


(** A matrix with a READ row and a DELETE row that ended on 1 January 2020,
    both for role 1 on the resource "/orders", read on 1 January 2026. *)
Definition ordersResource : Resource :=
  {| ResourceId := 1; ResourcePath := "/orders"; ResourceName := "Orders";
     ResourceType := "PAGE"; HierarchyLevel := 1; ParentResourceId := None |}.

Definition readAndDelete : list Action :=
  [{| ActionId := 1; ActionName := "READ" |};
   {| ActionId := 2; ActionName := "DELETE" |}].

Definition row (id role resource action : Z) (to : option string)
    (meta : option string) : PermissionMatrix :=
  {| PermissionId := id; pmRoleId := role; pmResourceId := resource;
     pmActionId := action; IsActive := true; ValidFrom := None; ValidTo := to;
     IsOverride := None; Metadata := meta |}.

Definition expiredDeleteMatrix : list PermissionMatrix :=
  [row 1 1 1 1 None None;
   row 2 1 1 2 (Some "2020-01-01T00:00:00.000Z") None].

Definition dateOf2020 (s : string) : option Z :=
  if s =? "2020-01-01T00:00:00.000Z" then Some 1577836800000%Z else None.

Definition january2026 : Z := 1767225600000.

(** A parser that rejects every text, as [JSON.parse] rejects "{oops". *)
Definition rejectAll (s : string) : option value := None.

(** ** The other exports of [rbacUtils.ts] *)

(** [getResourcePermissions] (lines 95-101). *)
Definition getResourcePermissions (userPermissions : list UserPermission)
    (path : string) : list string :=
  match findByPath userPermissions path with
  | Some permission => actions permission
  | None => []
  end.

(** [isResourceVisible] (lines 106-112): the request carries no stage of its
    own. *)
Definition isResourceVisible (userPermissions : list UserPermission)
    (path : string) (workflowStage : option string) : completion bool :=
  hasPermission userPermissions (request path "READ" None) workflowStage.

(** [isResourceEnabled] (lines 117-124). *)
Definition isResourceEnabled (userPermissions : list UserPermission)
    (path action : string) (workflowStage : option string) : completion bool :=
  hasPermission userPermissions (request path action None) workflowStage.

(** [l.filter(f)] for an [f] that may throw: the first throw ends the call. *)
Fixpoint filterThrowing {T : Type} (f : T -> completion bool) (l : list T)
  : completion (list T) :=
  match l with
  | [] => Return []
  | x :: rest =>
      bind (f x) (fun keep =>
      bind (filterThrowing f rest) (fun kept =>
      Return (if keep then x :: kept else kept)))
  end.

(** [filterResourcesByPermission] (lines 129-138), for any [T] with a
    [resourcePath]; an absent [action] defaults to ['READ']. *)
Definition filterResourcesByPermission {T : Type} (pathOf : T -> string)
    (resources : list T) (userPermissions : list UserPermission)
    (action : option string) (workflowStage : option string)
  : completion (list T) :=
  let action := match action with Some a => a | None => "READ" end in
  filterThrowing
    (fun resource =>
       hasPermission userPermissions (request (pathOf resource) action None)
                     workflowStage)
    resources.

(** [getWorkflowRestrictions] (lines 143-154); [None] is the [null] it
    returns.  The stage is looked up as it is, the empty string too.  As in
    [get], a stage that names a built-in property yields [None] here where
    the code yields the built-in; its one caller,
    [isActionRestrictedInWorkflow], answers [false] on both. *)
Definition getWorkflowRestrictions (userPermissions : list UserPermission)
    (path workflowStage : string) : option value :=
  match findByPath userPermissions path with
  | Some permission =>
      match get_opt (metadata permission) "workflowRestrictions" with
      | Some wr =>
          if truthy wr then
            match get wr workflowStage with
            | Some restrictions =>
                if truthy restrictions then Some restrictions else None
            | None => None
            end
          else None
      | None => None
      end
  | None => None
  end.

(** [isActionRestrictedInWorkflow] (lines 159-179).  Its two tests
    (lines 170-176) are those of the workflow block of [hasPermission]; it
    answers [true] where that block returns [false]. *)
Definition isActionRestrictedInWorkflow (userPermissions : list UserPermission)
    (path action : string) (workflowStage : option string) : completion bool :=
  match workflowStage with
  | Some stage =>
      if negb (stage =? "") then
        match getWorkflowRestrictions userPermissions path stage with
        | Some restrictions =>
            match checkRestrictions restrictions action with
            | Raise => Throw TypeError
            | Blocked => Return true
            | Pass => Return false
            end
        | None => Return false
        end
      else Return false
  | None => Return false
  end.

(** A path made of slashes only, the empty path among them. *)
Fixpoint onlySlashes (s : string) : bool :=
  match s with
  | EmptyString => true
  | String c rest => Ascii.eqb c "/" && onlySlashes rest
  end.

(** ** The guard component ([RBACGuard], [usePermission]) *)

Section Guard.

(** What React is given to render; a node is whatever the caller passes as
    [children] or [fallback]. *)
Variable Node : Type.

Inductive rendered : Type :=
| RenderNull
| Fragment (n : Node)
| DisabledBox (n : Node).

(** The props: [fallback] is [None] when it is absent or a falsy node;
    [hideOnDenied] and [disableOnDenied] default to [false]. *)
Record GuardProps : Type := {
  gResourcePath : string;
  gAction : string;
  gChildren : Node;
  gFallback : option Node;
  gHideOnDenied : bool;
  gDisableOnDenied : bool
}.

(** [fallback ? <>{fallback}</> : null]. *)
Definition renderFallback (fallback : option Node) : rendered :=
  match fallback with
  | Some n => Fragment n
  | None => RenderNull
  end.

(** [RBACGuard], with the [userPermissions] and [workflowStage] it reads
    from the store passed in. *)
Definition RBACGuard (userPermissions : list UserPermission)
    (workflowStage : option string) (props : GuardProps) : completion rendered :=
  bind (hasPermission userPermissions
          (request (gResourcePath props) (gAction props) None) workflowStage)
       (fun hasAccess =>
          if negb hasAccess && gHideOnDenied props
          then Return (renderFallback (gFallback props))
          else if negb hasAccess && gDisableOnDenied props
          then Return (DisabledBox (gChildren props))
          else if negb hasAccess
          then Return (renderFallback (gFallback props))
          else Return (Fragment (gChildren props))).

End Guard.

Arguments RenderNull {Node}.
Arguments Fragment {Node} n.
Arguments DisabledBox {Node} n.

(** [usePermission]. *)
Definition usePermission (userPermissions : list UserPermission)
    (workflowStage : option string) (path action : string) : completion bool :=
  hasPermission userPermissions (request path action None) workflowStage.

(** ** What a compiled entry is made of *)

(** The entry the compiler builds for a group: path, id and level of the
    group's resource, the action names of all rows of the group, and flags,
    window and parsed metadata of the first currently valid row. *)
Definition entryOf (dateOf : string -> option Z) (now : Z)
    (jsonParse : string -> option value)
    (resources : list Resource) (acts : list Action)
    (g : Z * list PermissionMatrix) (u : UserPermission) : Prop :=
  exists r first rest,
    resourceMap_get resources (fst g) = Some r /\
    filter (currentlyValid dateOf now) (snd g) = first :: rest /\
    parseMetadata jsonParse (Metadata first) = Return (metadata u) /\
    resourcePath u = ResourcePath r /\
    resourceId u = fst g /\
    actions u = actionNames acts (snd g) /\
    isActive u = true /\
    isOverride u = IsOverride first /\
    hierarchyLevel u = HierarchyLevel r /\
    validFrom u = ValidFrom first /\
    validTo u = ValidTo first.

(** What the second [forEach] adds to the array: one entry per group that
    has a resource and a valid row, in the order of the groups. *)
Fixpoint builtFor (dateOf : string -> option Z) (now : Z)
    (jsonParse : string -> option value)
    (resources : list Resource) (acts : list Action)
    (gs : groups) (new : list UserPermission) : Prop :=
  match gs with
  | [] => new = []
  | g :: rest =>
      ((resourceMap_get resources (fst g) = None
        \/ filter (currentlyValid dateOf now) (snd g) = [])
       /\ builtFor dateOf now jsonParse resources acts rest new)
      \/ exists u new',
           new = u :: new' /\
           entryOf dateOf now jsonParse resources acts g u /\
           builtFor dateOf now jsonParse resources acts rest new'
  end.

(** The entry compiled from [expiredDeleteMatrix]. *)
Definition compiledOrders : UserPermission :=
  {| resourcePath := "/orders"; resourceId := 1;
     actions := ["READ"; "DELETE"]; isActive := true;
     isOverride := None; hierarchyLevel := 1;
     validFrom := None; validTo := None; metadata := None |}.

(** ** The hooks ([useRBACPermissions], [useWorkflowPermissions]) and the
    debug view *)

(** [checkPermission] of [useRBACPermissions], with the [userPermissions]
    and [workflowStage] it reads from the store passed in. *)
Definition checkPermission (userPermissions : list UserPermission)
    (workflowStage : option string) (path action : string)
    (customWorkflowStage : option string) : completion bool :=
  hasPermission userPermissions (request path action None)
                (or_else customWorkflowStage workflowStage).

Definition allActions : list string :=
  ["CREATE"; "READ"; "UPDATE"; "DELETE"; "SUBMIT"; "APPROVE"].

(** [getWorkflowActions] of [useWorkflowPermissions]. *)
Definition getWorkflowActions (userPermissions : list UserPermission)
    (workflowStage : option string) (path : string) (stage : option string)
  : completion (list string) :=
  let currentStage := or_else stage workflowStage in
  filterThrowing
    (fun action =>
       checkPermission userPermissions workflowStage path action currentStage)
    allActions.

(** [relevantPermissions] of [RBACDebugInfo] and [debugPermission]. *)
Definition relevantPermissions (userPermissions : list UserPermission)
    (path : string) : list UserPermission :=
  filter (fun p => (resourcePath p =? path) || startsWith path (resourcePath p))
         userPermissions.

(** ** [buildResourceHierarchy] ([rbacSlice.ts]) *)

(** The nodes are the values of [resourceMap], one for each resource id, so
    a node is named here by its id; its content is the last resource of the
    list with that id ([resourceMap_get]).  [rootResources] and the
    [children] arrays hold references to nodes, here their ids. *)
Record Hierarchy : Type := {
  rootResources : list Z;
  children : Z -> list Z
}.

(** The parent id, when [resource.ParentResourceId] is truthy. *)
Definition parentOf (resource : Resource) : option Z :=
  match ParentResourceId resource with
  | Some p => if (p =? 0)%Z then None else Some p
  | None => None
  end.

(** The body of the second [forEach] (lines 110-121). *)
Definition attach (resources : list Resource) (h : Hierarchy)
    (resource : Resource) : Hierarchy :=
  match parentOf resource with
  | Some p =>
      match resourceMap_get resources p with
      | Some _ =>
          {| rootResources := rootResources h;
             children := fun k => if (k =? p)%Z
                                  then (children h k ++ [ResourceId resource])%list
                                  else children h k |}
      | None => h
      end
  | None =>
      {| rootResources := (rootResources h ++ [ResourceId resource])%list;
         children := children h |}
  end.

Definition buildResourceHierarchy (resources : list Resource) : Hierarchy :=
  fold_left (attach resources) resources
            {| rootResources := []; children := fun _ => [] |}.

Definition isRoot (resource : Resource) : bool :=
  match parentOf resource with
  | Some _ => false
  | None => true
  end.

Definition isChildOf (k : Z) (resource : Resource) : bool :=
  match parentOf resource with
  | Some p => (p =? k)%Z
  | None => false
  end.

(** A root and a resource whose parent, 9, does not exist. *)
Definition rootAndOrphan : list Resource :=
  [{| ResourceId := 1; ResourcePath := "/orders"; ResourceName := "Orders";
      ResourceType := "PAGE"; HierarchyLevel := 1; ParentResourceId := None |};
   {| ResourceId := 2; ResourcePath := "/lost"; ResourceName := "Lost";
      ResourceType := "PAGE"; HierarchyLevel := 2; ParentResourceId := Some 9%Z |}].

(** ** The slice ([rbacSlice.ts]) *)

Record Role : Type := {
  RoleId : Z;
  RoleName : string;
  RoleDescription : option string   (* the field [Description] *)
}.

(** [RBACState]; the fields carry the prefix [st] because [actions] and the
    like name other things here. *)
Record RBACState : Type := {
  stRoles : list Role;
  stResources : list Resource;
  stActions : list Action;
  stPermissionMatrix : list PermissionMatrix;
  stUserPermissions : list UserPermission;
  stCurrentUserRoleId : option Z;
  stWorkflowStage : option string;
  stIsLoading : bool;
  stError : option string
}.

Definition initialState : RBACState :=
  {| stRoles := []; stResources := []; stActions := [];
     stPermissionMatrix := []; stUserPermissions := [];
     stCurrentUserRoleId := None; stWorkflowStage := None;
     stIsLoading := false; stError := None |}.

(** The actions the slice has a case for, and [otherAction] for all the
    others.  A rejected thunk carries [action.error.message]. *)
Inductive SliceAction : Type :=
| setCurrentUserRole (payload : Z)
| setWorkflowStage (payload : string)
| clearError
| resetRBAC
| fetchPermissionMatrix_pending
| fetchPermissionMatrix_fulfilled (payload : list PermissionMatrix)
| fetchPermissionMatrix_rejected (message : option string)
| fetchRoles_fulfilled (payload : list Role)
| fetchRoles_rejected (message : option string)
| fetchResources_fulfilled (payload : list Resource)
| fetchResources_rejected (message : option string)
| fetchActions_fulfilled (payload : list Action)
| fetchActions_rejected (message : option string)
| fetchSimpleDemoData_pending
| fetchSimpleDemoData_fulfilled (roles : list Role) (resources : list Resource)
                                (acts : list Action)
| fetchSimpleDemoData_rejected (message : option string)
| fetchSimpleDemoPermissions_pending
| fetchSimpleDemoPermissions_fulfilled (payload : list PermissionMatrix)
| fetchSimpleDemoPermissions_rejected (message : option string)
| otherAction.

(** [state.isLoading = l; state.error = e]. *)
Definition setStatus (state : RBACState) (l : bool) (e : option string)
  : RBACState :=
  {| stRoles := stRoles state; stResources := stResources state;
     stActions := stActions state;
     stPermissionMatrix := stPermissionMatrix state;
     stUserPermissions := stUserPermissions state;
     stCurrentUserRoleId := stCurrentUserRoleId state;
     stWorkflowStage := stWorkflowStage state;
     stIsLoading := l; stError := e |}.

Section Slice.

Variable dateOf : string -> option Z.
Variable now : Z.
Variable jsonParse : string -> option value.

(** [state.isLoading = false; state.permissionMatrix = payload;
    state.userPermissions = transformToUserPermissions(payload, ...)]
    (lines 229-239 and 287-297). *)
Definition matrixLoaded (state : RBACState) (payload : list PermissionMatrix)
  : completion RBACState :=
  bind (transformToUserPermissions dateOf now jsonParse payload
          (stResources state) (stActions state) (stCurrentUserRoleId state))
       (fun ups =>
          Return {| stRoles := stRoles state; stResources := stResources state;
                    stActions := stActions state;
                    stPermissionMatrix := payload;
                    stUserPermissions := ups;
                    stCurrentUserRoleId := stCurrentUserRoleId state;
                    stWorkflowStage := stWorkflowStage state;
                    stIsLoading := false; stError := stError state |}).

(** The reducer of the slice: [reducers] and [extraReducers].  A throw of
    the compiler leaves the reducer as a throw. *)
Definition rbacReducer (state : RBACState) (action : SliceAction)
  : completion RBACState :=
  match action with
  | setCurrentUserRole payload =>
      bind (transformToUserPermissions dateOf now jsonParse
              (stPermissionMatrix state) (stResources state) (stActions state)
              (Some payload))
           (fun ups =>
              Return {| stRoles := stRoles state; stResources := stResources state;
                        stActions := stActions state;
                        stPermissionMatrix := stPermissionMatrix state;
                        stUserPermissions := ups;
                        stCurrentUserRoleId := Some payload;
                        stWorkflowStage := stWorkflowStage state;
                        stIsLoading := stIsLoading state;
                        stError := stError state |})
  | setWorkflowStage payload =>
      Return {| stRoles := stRoles state; stResources := stResources state;
                stActions := stActions state;
                stPermissionMatrix := stPermissionMatrix state;
                stUserPermissions := stUserPermissions state;
                stCurrentUserRoleId := stCurrentUserRoleId state;
                stWorkflowStage := Some payload;
                stIsLoading := stIsLoading state; stError := stError state |}
  | clearError => Return (setStatus state (stIsLoading state) None)
  | resetRBAC => Return initialState
  | fetchPermissionMatrix_pending => Return (setStatus state true None)
  | fetchPermissionMatrix_fulfilled payload => matrixLoaded state payload
  | fetchPermissionMatrix_rejected message => Return (setStatus state false message)
  | fetchRoles_fulfilled payload =>
      Return {| stRoles := payload; stResources := stResources state;
                stActions := stActions state;
                stPermissionMatrix := stPermissionMatrix state;
                stUserPermissions := stUserPermissions state;
                stCurrentUserRoleId := stCurrentUserRoleId state;
                stWorkflowStage := stWorkflowStage state;
                stIsLoading := stIsLoading state; stError := stError state |}
  | fetchRoles_rejected message =>
      Return (setStatus state (stIsLoading state) message)
  | fetchResources_fulfilled payload =>
      Return {| stRoles := stRoles state; stResources := payload;
                stActions := stActions state;
                stPermissionMatrix := stPermissionMatrix state;
                stUserPermissions := stUserPermissions state;
                stCurrentUserRoleId := stCurrentUserRoleId state;
                stWorkflowStage := stWorkflowStage state;
                stIsLoading := stIsLoading state; stError := stError state |}
  | fetchResources_rejected message =>
      Return (setStatus state (stIsLoading state) message)
  | fetchActions_fulfilled payload =>
      Return {| stRoles := stRoles state; stResources := stResources state;
                stActions := payload;
                stPermissionMatrix := stPermissionMatrix state;
                stUserPermissions := stUserPermissions state;
                stCurrentUserRoleId := stCurrentUserRoleId state;
                stWorkflowStage := stWorkflowStage state;
                stIsLoading := stIsLoading state; stError := stError state |}
  | fetchActions_rejected message =>
      Return (setStatus state (stIsLoading state) message)
  | fetchSimpleDemoData_pending => Return (setStatus state true None)
  | fetchSimpleDemoData_fulfilled roles resources acts =>
      Return {| stRoles := roles; stResources := resources; stActions := acts;
                stPermissionMatrix := stPermissionMatrix state;
                stUserPermissions := stUserPermissions state;
                stCurrentUserRoleId := stCurrentUserRoleId state;
                stWorkflowStage := stWorkflowStage state;
                stIsLoading := false; stError := stError state |}
  | fetchSimpleDemoData_rejected message => Return (setStatus state false message)
  | fetchSimpleDemoPermissions_pending => Return (setStatus state true None)
  | fetchSimpleDemoPermissions_fulfilled payload => matrixLoaded state payload
  | fetchSimpleDemoPermissions_rejected message =>
      Return (setStatus state false message)
  | otherAction => Return state
  end.

(** The compiled list of a state is the one the compiler gives, at the
    instant [now], for the state's own matrix, tables and role. *)
Definition inSync (state : RBACState) : Prop :=
  transformToUserPermissions dateOf now jsonParse
    (stPermissionMatrix state) (stResources state) (stActions state)
    (stCurrentUserRoleId state)
  = Return (stUserPermissions state).

End Slice.

(** The actions on which the reducer compiles anew (or resets). *)
Definition recompiles (action : SliceAction) : bool :=
  match action with
  | setCurrentUserRole _ | resetRBAC
  | fetchPermissionMatrix_fulfilled _
  | fetchSimpleDemoPermissions_fulfilled _ => true
  | _ => false
  end.

(** The actions that replace the resource or the action table. *)
Definition replacesTables (action : SliceAction) : bool :=
  match action with
  | fetchResources_fulfilled _ | fetchActions_fulfilled _
  | fetchSimpleDemoData_fulfilled _ _ _ => true
  | _ => false
  end.

(** ** Properties of the access evaluator *)

Example split_ex : split "/" "/orders//form/" = [""; "orders"; ""; "form"; ""].
Proof. reflexivity. Qed.

Example split_empty : split "/" "" = [""].
Proof. reflexivity. Qed.

Example parentPath_ex :
  parentPath (pathSegments "/orders/form/amount") 1 = "/orders/form".
Proof. reflexivity. Qed.

Example inherit_ex :
  hasPermission [entry "/orders" ["READ"] None None]
                (request "/orders/form/amount" "READ" None) None = Return true.
Proof. reflexivity. Qed.

Section Evaluator.

Variable userPermissions : list UserPermission.

Lemma findByPath_none (path : string) :
  (forall p, In p userPermissions -> resourcePath p <> path) ->
  findByPath userPermissions path = None.
Proof.
  unfold findByPath. induction userPermissions as [|q l IH]; intros Hno.
  - reflexivity.
  - simpl. destruct (String.eqb_spec (resourcePath q) path) as [E|_].
    + exfalso. apply (Hno q); [now left | exact E].
    + apply IH. intros p Hp. apply Hno. now right.
Qed.

Lemma findByPath_some (path : string) (e : UserPermission) :
  findByPath userPermissions path = Some e ->
  In e userPermissions /\ resourcePath e = path.
Proof.
  unfold findByPath. intros H. apply find_some in H. destruct H as [Hin Heq].
  split; [exact Hin | now apply String.eqb_eq].
Qed.

(** Where no two entries share a path, as the data model requires, the entry
    at a path is the one [find] returns. *)
Lemma findByPath_unique (e : UserPermission) :
  NoDup (map resourcePath userPermissions) ->
  In e userPermissions ->
  findByPath userPermissions (resourcePath e) = Some e.
Proof.
  unfold findByPath. induction userPermissions as [|q l IH]; intros Hnd Hin.
  - contradiction.
  - simpl in *. inversion Hnd as [|? ? Hnotin Hrest]; subst.
    destruct Hin as [->|Hin]; [now rewrite String.eqb_refl|].
    destruct (String.eqb_spec (resourcePath q) (resourcePath e)) as [E|_].
    + exfalso. apply Hnotin. rewrite E. now apply in_map.
    + now apply IH.
Qed.

Lemma climb_grantingAncestor (path action : string) (stage : option string)
    (segments : list string) (n : nat) :
  climb userPermissions path action stage segments n =
  match grantingAncestor userPermissions action segments n with
  | Some parent =>
      if hasOverride userPermissions path action then Return false
      else conclude (workflowCheck parent stage action) true
  | None => Return false
  end.
Proof.
  induction n as [|i IH]; simpl.
  - reflexivity.
  - destruct (findByPath userPermissions (parentPath segments i)) as [parent|].
    + destruct (includes (actions parent) action).
      * destruct (hasOverride userPermissions path action); [reflexivity|].
        now destruct (workflowCheck parent stage action).
      * exact IH.
    + exact IH.
Qed.

Lemma hasPermission_exact (params : PermissionCheckParams)
    (ambient : option string) (e : UserPermission) :
  findByPath userPermissions (pResourcePath params) = Some e ->
  hasPermission userPermissions params ambient =
  if truthy_bool (isOverride e) then Return (includes (actions e) (pAction params))
  else conclude (workflowCheck e (or_else (pWorkflowStage params) ambient)
                               (pAction params))
                (includes (actions e) (pAction params)).
Proof.
  intros H. unfold hasPermission. rewrite H.
  destruct (truthy_bool (isOverride e)); [reflexivity|].
  now destruct (workflowCheck _ _ _).
Qed.

Lemma hasPermission_fallback (params : PermissionCheckParams)
    (ambient : option string) :
  findByPath userPermissions (pResourcePath params) = None ->
  hasPermission userPermissions params ambient =
  let segments := pathSegments (pResourcePath params) in
  match grantingAncestor userPermissions (pAction params) segments
                         (length segments) with
  | Some parent =>
      if hasOverride userPermissions (pResourcePath params) (pAction params)
      then Return false
      else conclude (workflowCheck parent
                       (or_else (pWorkflowStage params) ambient) (pAction params))
                    true
  | None => Return false
  end.
Proof.
  intros H. unfold hasPermission. rewrite H. apply climb_grantingAncestor.
Qed.

Lemma hasOverride_intro (path action : string) (p : UserPermission) :
  In p userPermissions ->
  startsWith (resourcePath p) path = true ->
  isOverride p = Some true ->
  includes (actions p) action = false ->
  hasOverride userPermissions path action = true.
Proof.
  intros Hin Hpre Hov Hact. unfold hasOverride. apply existsb_exists.
  exists p. split; [exact Hin|]. now rewrite Hpre, Hov, Hact.
Qed.

End Evaluator.

(** C9. Default deny: on the empty permission list the evaluator returns
    [false] for every resource path, every action and every workflow stage,
    passed in the request or as the third argument. *)
Theorem hasPermission_empty_deny (params : PermissionCheckParams)
    (workflowStage : option string) :
  hasPermission [] params workflowStage = Return false.
Proof.
  rewrite hasPermission_fallback by reflexivity. simpl.
  generalize (length (pathSegments (pResourcePath params))) as n.
  induction n as [|i IH]; simpl; [reflexivity | exact IH].
Qed.

(** C1. On the list [{path:"/orders", actions:["READ"]},
    {path:"/orders/form", actions:[], isOverride:true}] the request
    ("/orders/form/amount", "READ", no stage) is answered [true]: the check
    of lines 61-66 asks whether an entry's path starts with the requested
    path, and "/orders/form" does not start with "/orders/form/amount", so
    the override entry does not block the READ inherited from "/orders". *)
Theorem override_between_ancestor_and_request_is_missed :
  hasPermission [entry "/orders" ["READ"] None None;
                 entry "/orders/form" [] (Some true) None]
                (request "/orders/form/amount" "READ" None) None
  = Return true.
Proof. reflexivity. Qed.

(** C3. Override-deny in the hierarchical fallback: when no entry sits at the
    requested path and some ancestor path of the request (its first [i + 1]
    segments, for an [i] below the number of segments) holds an entry that
    lists the action, then an override entry whose path starts with the
    requested path itself and that does not list the action makes the
    evaluator return [false]. *)
Theorem fallback_override_deny (userPermissions : list UserPermission)
    (path action : string) (stage workflowStage : option string) :
  (forall p, In p userPermissions -> resourcePath p <> path) ->
  (exists i parent,
      i < length (pathSegments path) /\
      findByPath userPermissions (parentPath (pathSegments path) i) = Some parent /\
      includes (actions parent) action = true) ->
  (exists p,
      In p userPermissions /\
      startsWith (resourcePath p) path = true /\
      isOverride p = Some true /\
      includes (actions p) action = false) ->
  hasPermission userPermissions (request path action stage) workflowStage
  = Return false.
Proof.
  intros Hno _ (p & Hin & Hpre & Hov & Hact).
  rewrite hasPermission_fallback by (apply findByPath_none; exact Hno).
  simpl. rewrite (hasOverride_intro userPermissions path action p Hin Hpre Hov Hact).
  now destruct (grantingAncestor _ _ _ _).
Qed.

Lemma fallback_override_deny_witness :
  hasPermission [entry "/orders" ["READ"] None None;
                 entry "/orders/form/amount" [] (Some true) None]
                (request "/orders/form" "READ" None) None
  = Return false.
Proof.
  apply fallback_override_deny.
  - intros p [<-|[<-|[]]]; discriminate.
  - exists 0, (entry "/orders" ["READ"] None None).
    split; [simpl; lia | split; reflexivity].
  - exists (entry "/orders/form/amount" [] (Some true) None).
    split; [right; left; reflexivity | repeat split; reflexivity].
Defined.



(** The same on a list without duplicate paths, for any override entry of
    the list at the requested path. *)
Lemma override_entry_decides (userPermissions : list UserPermission)
    (action : string) (stage workflowStage : option string) (e : UserPermission) :
  NoDup (map resourcePath userPermissions) ->
  In e userPermissions ->
  isOverride e = Some true ->
  hasPermission userPermissions (request (resourcePath e) action stage) workflowStage
  = Return (includes (actions e) action).
Proof.
  intros Hnd Hin Hov.
  rewrite (hasPermission_exact userPermissions _ workflowStage e)
    by (apply findByPath_unique; assumption).
  now rewrite Hov.
Qed.

(** *** The workflow block *)






Lemma grantingAncestor_some (userPermissions : list UserPermission)
    (action : string) (segments : list string) (n : nat) (e : UserPermission) :
  grantingAncestor userPermissions action segments n = Some e ->
  In e userPermissions /\ includes (actions e) action = true.
Proof.
  induction n as [|i IH]; simpl; [discriminate|].
  destruct (findByPath userPermissions (parentPath segments i)) as [q|] eqn:Hq;
    [|exact IH].
  destruct (includes (actions q) action) eqn:Hact; [|exact IH].
  intros [= <-]. split; [|exact Hact].
  now apply (findByPath_some userPermissions (parentPath segments i)).
Qed.



(** *** The stage a call resolves *)

(** C6 (as the code has it). An explicit, non-empty [workflowStage] in the
    request decides the stage: whatever stage is passed as the third argument,
    the result is that of the call with the explicit stage alone. *)
Theorem explicit_stage_takes_precedence (userPermissions : list UserPermission)
    (path action explicit : string) (workflowStage : option string) :
  explicit <> "" ->
  hasPermission userPermissions (request path action (Some explicit)) workflowStage
  = hasPermission userPermissions (request path action (Some explicit)) None.
Proof.
  intros Hne. unfold hasPermission, or_else, truthy_str. simpl.
  apply String.eqb_neq in Hne. now rewrite Hne.
Qed.

Lemma explicit_stage_takes_precedence_witness :
  hasPermission [entry "/a" ["READ"] None None]
                (request "/a" "READ" (Some "draft")) (Some "approved")
  = hasPermission [entry "/a" ["READ"] None None]
                  (request "/a" "READ" (Some "draft")) None.
Proof.
  apply explicit_stage_takes_precedence. discriminate.
Defined.

(** C6 as stated fails for the empty string: [paramWorkflowStage ||
    workflowStage] takes an explicit [""] for absent, so the third argument
    decides the stage. *)
Lemma empty_explicit_stage_yields_to_ambient :
  hasPermission
    [entry "/a" ["READ"] None
       (Some (Obj [("workflowRestrictions",
                    Obj [("draft", Obj [("restrictedActions", strings ["READ"])])])]))]
    (request "/a" "READ" (Some "")) (Some "draft")
  <> hasPermission
       [entry "/a" ["READ"] None
          (Some (Obj [("workflowRestrictions",
                       Obj [("draft", Obj [("restrictedActions", strings ["READ"])])])]))]
       (request "/a" "READ" (Some "")) None.
Proof. intros H. vm_compute in H. discriminate H. Qed.

(** *** Totality *)

Lemma field_in (k : string) (fields : list (string * value)) (v : value) :
  field k fields = Some v -> exists k', In (k', v) fields.
Proof.
  induction fields as [|[k' v'] rest IH]; simpl; [discriminate|].
  destruct (k' =? k).
  - intros [= <-]. exists k'. now left.
  - intros H. destruct (IH H) as [k'' Hin]. exists k''. now right.
Qed.

Lemma element_in (k : string) (xs : list value) (i : nat) (v : value) :
  element k i xs = Some v -> In v xs.
Proof.
  revert i. induction xs as [|x rest IH]; simpl; intros i; [discriminate|].
  destruct (index_name i =? k).
  - intros [= <-]. now left.
  - intros H. right. exact (IH _ H).
Qed.

Lemma checkRestrictions_shaped (r : value) (action : string) :
  restrictionsShaped r = true -> checkRestrictions r action <> Raise.
Proof.
  unfold restrictionsShaped, checkRestrictions. intros H.
  apply andb_true_iff in H. destruct H as [Hr Ha].
  destruct (get r "restrictedActions") as [ra|].
  - destruct ra; try discriminate; simpl.
    + destruct (get r "allowedActions") as [aa|]; [|discriminate].
      destruct aa; simpl in *; try discriminate;
        repeat match goal with
               | |- context [if ?c then _ else _] => destruct c
               end; discriminate.
    + destruct (occurs action s); [discriminate|].
      destruct (get r "allowedActions") as [aa|]; [|discriminate].
      destruct aa; simpl in *; try discriminate;
        repeat match goal with
               | |- context [if ?c then _ else _] => destruct c
               end; discriminate.
    + destruct (existsb (is_string action) xs); [discriminate|].
      destruct (get r "allowedActions") as [aa|]; [|discriminate].
      destruct aa; simpl in *; try discriminate;
        repeat match goal with
               | |- context [if ?c then _ else _] => destruct c
               end; discriminate.
  - destruct (get r "allowedActions") as [aa|]; [|discriminate].
    destruct aa; simpl in *; try discriminate;
      repeat match goal with
             | |- context [if ?c then _ else _] => destruct c
             end; discriminate.
Qed.

Lemma workflowCheck_shaped (p : UserPermission) (stage : option string)
    (action : string) :
  metadataShaped (metadata p) = true -> workflowCheck p stage action <> Raise.
Proof.
  unfold metadataShaped, workflowCheck. intros H.
  destruct stage as [stage|]; [|discriminate].
  destruct (negb (stage =? "")); [|discriminate].
  destruct (get_opt (metadata p) "workflowRestrictions") as [wr|]; [|discriminate].
  destruct (truthy wr); [|discriminate].
  destruct (get wr stage) as [r|] eqn:Hget; [|discriminate].
  destruct (truthy r); [|discriminate].
  apply checkRestrictions_shaped.
  destruct wr; simpl in Hget; try discriminate.
  - apply element_in in Hget.
    rewrite forallb_forall in H. now apply H.
  - apply field_in in Hget. destruct Hget as [k' Hin].
    rewrite forallb_forall in H. exact (H _ Hin).
Qed.

Lemma conclude_returns (v : verdict) (granted : bool) :
  v <> Raise -> exists b, conclude v granted = Return b.
Proof. destruct v; intros H; [eexists; reflexivity .. | congruence]. Qed.

(** C7 (as the code has it). On a permission list whose metadata is shaped
    as documented, in that every [restrictedActions] is absent, [null], an
    array or a string and every [allowedActions] is absent, falsy, an array
    or a string, the evaluator throws nothing and returns a boolean, for
    every resource path (the empty one too), every action and every stage. *)
Theorem hasPermission_total_on_shaped_metadata
    (userPermissions : list UserPermission) (params : PermissionCheckParams)
    (workflowStage : option string) :
  (forall p, In p userPermissions -> metadataShaped (metadata p) = true) ->
  exists b, hasPermission userPermissions params workflowStage = Return b.
Proof.
  intros Hshape.
  destruct (findByPath userPermissions (pResourcePath params)) as [e|] eqn:Hfind.
  - rewrite (hasPermission_exact userPermissions params workflowStage e Hfind).
    destruct (truthy_bool (isOverride e)); [eexists; reflexivity|].
    apply conclude_returns, workflowCheck_shaped, Hshape.
    now apply (findByPath_some userPermissions (pResourcePath params)).
  - rewrite (hasPermission_fallback userPermissions params workflowStage Hfind).
    cbv zeta.
    destruct (grantingAncestor _ _ _ _) as [parent|] eqn:Hanc;
      [|eexists; reflexivity].
    destruct (hasOverride _ _ _); [eexists; reflexivity|].
    apply conclude_returns, workflowCheck_shaped, Hshape.
    exact (proj1 (grantingAncestor_some _ _ _ _ _ Hanc)).
Qed.

Lemma hasPermission_total_on_shaped_metadata_witness :
  exists b,
    hasPermission
      [entry "/a" ["READ"] None
         (Some (Obj [("workflowRestrictions",
                      Obj [("draft", Obj [("allowedActions", strings ["READ"])])])]))]
      (request "" "DANCE" (Some "draft")) None
    = Return b.
Proof.
  apply hasPermission_total_on_shaped_metadata.
  intros p [<-|[]]. reflexivity.
Defined.

(** C7 as stated fails: [metadata] is declared [any], and a
    [restrictedActions] that is a number has no [includes] to call. *)
Lemma hasPermission_throws_on_malformed_metadata :
  hasPermission
    [entry "/a" ["READ"] None
       (Some (Obj [("workflowRestrictions",
                    Obj [("draft", Obj [("restrictedActions", Num 5)])])]))]
    (request "/a" "READ" (Some "draft")) None
  = Throw TypeError.
Proof. reflexivity. Qed.

(** *** The first path the fallback tries *)

Lemma split_not_nil (sep : ascii) (s : string) : split sep s <> [].
Proof.
  destruct s as [|c rest]; simpl; [discriminate|].
  destruct (Ascii.eqb c sep); [discriminate|].
  destruct (split sep rest); discriminate.
Qed.

Lemma split_trailing (sep : ascii) (s : string) :
  split sep (s ++ String sep "") = (split sep s ++ [""])%list.
Proof.
  induction s as [|c rest IH]; simpl.
  - now rewrite Ascii.eqb_refl.
  - destruct (Ascii.eqb c sep).
    + now rewrite IH.
    + rewrite IH. destruct (split sep rest) as [|h t] eqn:E.
      * now destruct (split_not_nil sep rest).
      * reflexivity.
Qed.

Lemma pathSegments_trailing_slash (path : string) :
  pathSegments (path ++ "/") = pathSegments path.
Proof.
  unfold pathSegments, nonempty. rewrite split_trailing, filter_app. simpl.
  apply app_nil_r.
Qed.

Lemma pathSegments_leading_slash (path : string) :
  pathSegments ("/" ++ path) = pathSegments path.
Proof. reflexivity. Qed.

Lemma parentPath_last (segments : list string) :
  parentPath segments (length segments - 1) = "/" ++ join "/" segments.
Proof.
  unfold parentPath. f_equal. f_equal.
  destruct segments as [|x rest]; [reflexivity|].
  replace (length (x :: rest) - 1 + 1) with (length (x :: rest)) by (simpl; lia).
  apply firstn_all.
Qed.

Lemma split_one (x : string) : hasSlash x = false -> split "/" x = [x].
Proof.
  induction x as [|c rest IH]; simpl; [reflexivity|].
  intros H. apply orb_false_iff in H. destruct H as [Hc Hrest].
  now rewrite Hc, (IH Hrest).
Qed.

Lemma split_cons (x rest : string) :
  hasSlash x = false ->
  split "/" (x ++ String "/" rest) = x :: split "/" rest.
Proof.
  induction x as [|c x' IH]; simpl; [reflexivity|].
  intros H. apply orb_false_iff in H. destruct H as [Hc Hx].
  now rewrite Hc, (IH Hx).
Qed.

Lemma split_join (segments : list string) :
  segments <> [] ->
  Forall (fun s => isSegment s = true) segments ->
  split "/" (join "/" segments) = segments.
Proof.
  induction segments as [|x rest IH]; [contradiction|].
  intros _ Hall. inversion Hall as [|? ? Hx Hrest]; subst.
  apply andb_true_iff in Hx. destruct Hx as [_ Hx].
  apply negb_true_iff in Hx.
  destruct rest as [|y rest'].
  - now apply split_one.
  - change (join "/" (x :: y :: rest'))
      with (x ++ String "/" (join "/" (y :: rest'))).
    rewrite (split_cons _ _ Hx). f_equal. apply IH; [discriminate | exact Hrest].
Qed.

Lemma nonempty_segments (segments : list string) :
  Forall (fun s => isSegment s = true) segments -> nonempty segments = segments.
Proof.
  induction 1 as [|x rest Hx _ IH]; simpl; [reflexivity|].
  apply andb_true_iff in Hx. destruct Hx as [Hx _]. now rewrite Hx, IH.
Qed.

(** A path written "/" and segments joined by "/" is its own normal form,
    and so is the normal form of itself with a slash added at the end or with
    the leading slash left out. *)
Lemma normalized_variants (segments : list string) :
  segments <> [] ->
  Forall (fun s => isSegment s = true) segments ->
  normalized ("/" ++ join "/" segments) = "/" ++ join "/" segments
  /\ normalized (("/" ++ join "/" segments) ++ "/") = "/" ++ join "/" segments
  /\ normalized (join "/" segments) = "/" ++ join "/" segments.
Proof.
  intros Hne Hall.
  assert (H : pathSegments (join "/" segments) = segments).
  { unfold pathSegments. rewrite split_join by assumption.
    now apply nonempty_segments. }
  unfold normalized.
  rewrite pathSegments_trailing_slash, pathSegments_leading_slash, H.
  repeat split.
Qed.

(** C10. For a request path with at least one non-empty segment and no entry
    at the path itself, the first (most specific) path the fallback looks up
    is the normalized request, "/" followed by its segments joined by "/";
    an entry found there that lists the action therefore decides the call:
    [false] if the override check fires, else what the workflow block yields
    on that entry, [true] when it falls through. *)
Theorem fallback_starts_at_normalized_path (userPermissions : list UserPermission)
    (path action : string) (stage workflowStage : option string)
    (e : UserPermission) :
  pathSegments path <> [] ->
  (forall p, In p userPermissions -> resourcePath p <> path) ->
  parentPath (pathSegments path) (length (pathSegments path) - 1) = normalized path
  /\ (findByPath userPermissions (normalized path) = Some e ->
      includes (actions e) action = true ->
      hasPermission userPermissions (request path action stage) workflowStage
      = if hasOverride userPermissions path action then Return false
        else conclude (workflowCheck e (or_else stage workflowStage) action) true).
Proof.
  intros Hseg Hno. split; [apply parentPath_last|].
  intros Hfind Hact.
  rewrite hasPermission_fallback by (apply findByPath_none; exact Hno).
  simpl. unfold normalized in Hfind. rewrite <- parentPath_last in Hfind.
  destruct (pathSegments path) as [|x rest] eqn:E; [contradiction|].
  replace (length (x :: rest)) with (S (length (x :: rest) - 1)) at 1
    by (simpl; lia).
  cbn [grantingAncestor]. rewrite Hfind, Hact. reflexivity.
Qed.

(** The instance named in C10: "/orders/" against an entry at "/orders". *)
Lemma fallback_starts_at_normalized_path_witness :
  parentPath (pathSegments "/orders/") (length (pathSegments "/orders/") - 1)
  = "/orders"
  /\ hasPermission [entry "/orders" ["READ"] None None]
                   (request "/orders/" "READ" None) None
     = Return true.
Proof.
  destruct (fallback_starts_at_normalized_path
              [entry "/orders" ["READ"] None None] "/orders/" "READ" None None
              (entry "/orders" ["READ"] None None)) as [Hfirst Hgrant].
  - discriminate.
  - intros p [<-|[]]. discriminate.
  - split; [exact Hfirst|]. apply Hgrant; reflexivity.
Defined.

(** The other instance: "orders", without the leading slash. *)
Example missing_leading_slash_is_granted :
  hasPermission [entry "/orders" ["READ"] None None]
                (request "orders" "READ" None) None
  = Return true.
Proof. reflexivity. Qed.

(** ** Properties of the permission compiler *)

Example expired_row_is_not_valid :
  filter (currentlyValid dateOf2020 january2026) expiredDeleteMatrix
  = [row 1 1 1 1 None None].
Proof. reflexivity. Qed.

(** C2. The action of an expired row is compiled all the same: the action
    names of lines 166-169 are taken from every active row of the group, the
    validity filter of lines 173-177 only decides whether an entry is pushed
    and which row gives it its flags.  Here DELETE, whose only row ended in
    2020, is in the entry compiled in 2026. *)
Theorem expired_row_action_is_compiled :
  transformToUserPermissions dateOf2020 january2026 rejectAll
    expiredDeleteMatrix [ordersResource] readAndDelete (Some 1%Z)
  = Return [{| resourcePath := "/orders"; resourceId := 1;
               actions := ["READ"; "DELETE"]; isActive := true;
               isOverride := None; hierarchyLevel := 1;
               validFrom := None; validTo := None; metadata := None |}].
Proof. reflexivity. Qed.

(** *** Grouping *)

Lemma rowsOf_addToGroup (k : Z) (m : groups) (p : PermissionMatrix) :
  rowsOf k (addToGroup m p) =
  if (pmResourceId p =? k)%Z then (rowsOf k m ++ [p])%list else rowsOf k m.
Proof.
  induction m as [|[k' ps] rest IH]; simpl.
  - now destruct (pmResourceId p =? k)%Z.
  - destruct (Z.eqb_spec k' (pmResourceId p)) as [->|Hne]; simpl.
    + now destruct (pmResourceId p =? k)%Z.
    + destruct (Z.eqb_spec k' k) as [->|Hk]; [|exact IH].
      destruct (Z.eqb_spec (pmResourceId p) k); [congruence | reflexivity].
Qed.

Lemma rowsOf_fold (k : Z) (l : list PermissionMatrix) (m : groups) :
  rowsOf k (fold_left addToGroup l m) =
  (rowsOf k m ++ filter (fun p => (pmResourceId p =? k)%Z) l)%list.
Proof.
  revert m. induction l as [|p l IH]; intros m; simpl.
  - now rewrite app_nil_r.
  - rewrite IH, rowsOf_addToGroup.
    destruct (pmResourceId p =? k)%Z; [now rewrite <- app_assoc | reflexivity].
Qed.

Lemma keys_addToGroup (m : groups) (p : PermissionMatrix) (k : Z) :
  In k (map fst (addToGroup m p)) -> In k (map fst m) \/ k = pmResourceId p.
Proof.
  induction m as [|[k' ps] rest IH]; simpl.
  - intros [<-|[]]. now right.
  - destruct (k' =? pmResourceId p)%Z; simpl.
    + intros H. now left.
    + intros [H|H]; [now left; left|].
      destruct (IH H) as [H'|H']; [left; now right | now right].
Qed.

Lemma keys_addToGroup_NoDup (m : groups) (p : PermissionMatrix) :
  NoDup (map fst m) -> NoDup (map fst (addToGroup m p)).
Proof.
  induction m as [|[k' ps] rest IH]; simpl; intros Hnd.
  - constructor; [intros [] | constructor].
  - inversion Hnd as [|? ? Hnotin Hrest]; subst.
    destruct (Z.eqb_spec k' (pmResourceId p)) as [->|Hne]; simpl.
    + now constructor.
    + constructor; [|now apply IH].
      intros Hin. apply keys_addToGroup in Hin. destruct Hin; congruence.
Qed.

Lemma keys_fold_NoDup (l : list PermissionMatrix) (m : groups) :
  NoDup (map fst m) -> NoDup (map fst (fold_left addToGroup l m)).
Proof.
  revert m. induction l as [|p l IH]; intros m Hnd; simpl; [exact Hnd|].
  now apply IH, keys_addToGroup_NoDup.
Qed.

Lemma rowsOf_in (k : Z) (ps : list PermissionMatrix) (m : groups) :
  NoDup (map fst m) -> In (k, ps) m -> rowsOf k m = ps.
Proof.
  induction m as [|[k' ps'] rest IH]; simpl; intros Hnd Hin; [contradiction|].
  inversion Hnd as [|? ? Hnotin Hrest]; subst.
  destruct Hin as [[= -> ->]|Hin].
  - now rewrite Z.eqb_refl.
  - destruct (Z.eqb_spec k' k) as [->|_]; [|now apply IH].
    exfalso. apply Hnotin. now apply (in_map fst _ (k, ps)).
Qed.

Lemma in_rowsOf (k : Z) (m : groups) :
  rowsOf k m <> [] -> In (k, rowsOf k m) m.
Proof.
  induction m as [|[k' ps] rest IH]; simpl; intros Hne; [contradiction|].
  destruct (Z.eqb_spec k' k) as [->|_]; [now left | right; now apply IH].
Qed.

(** The groups the compiler iterates over are the rows of each resource. *)
Lemma groupByResource_rows (l : list PermissionMatrix) (k : Z)
    (ps : list PermissionMatrix) :
  In (k, ps) (groupByResource l) ->
  ps = filter (fun p => (pmResourceId p =? k)%Z) l.
Proof.
  intros Hin. unfold groupByResource in *.
  rewrite <- (rowsOf_in k ps _ (keys_fold_NoDup l [] (NoDup_nil _)) Hin).
  now rewrite rowsOf_fold.
Qed.

Lemma groupByResource_has (l : list PermissionMatrix) (k : Z) :
  filter (fun p => (pmResourceId p =? k)%Z) l <> [] ->
  In (k, filter (fun p => (pmResourceId p =? k)%Z) l) (groupByResource l).
Proof.
  intros Hne. unfold groupByResource.
  pose proof (rowsOf_fold k l []) as H. simpl in H.
  rewrite <- H. apply in_rowsOf. now rewrite H.
Qed.

(** *** One group, then all of them *)

Section CompilerFacts.

Variable dateOf : string -> option Z.
Variable now : Z.
Variable jsonParse : string -> option value.
Variable resources : list Resource.
Variable acts : list Action.

Let valid := currentlyValid dateOf now.
Let compile := compileGroup dateOf now jsonParse resources acts.
Let forEach := forEachGroup dateOf now jsonParse resources acts.








End CompilerFacts.




(** ** Further properties of the access evaluator *)

Lemma workflowCheck_unstaged (p : UserPermission) (stage : option string)
    (action : string) :
  truthy_str stage = false -> workflowCheck p stage action = Pass.
Proof.
  unfold truthy_str, workflowCheck. destruct stage as [s|]; [|reflexivity].
  now intros ->.
Qed.

Lemma workflowCheck_no_metadata (p : UserPermission) (stage : option string)
    (action : string) :
  metadata p = None -> workflowCheck p stage action = Pass.
Proof.
  unfold workflowCheck. intros ->. destruct stage as [s|]; [|reflexivity].
  now destruct (negb (s =? "")).
Qed.

Lemma conclude_true (v : verdict) (granted : bool) :
  conclude v granted = Return true -> v = Pass /\ granted = true.
Proof. destruct v; simpl; intros [= H]; auto. Qed.

Lemma grantingAncestor_index (userPermissions : list UserPermission)
    (action : string) (segments : list string) (n : nat) (e : UserPermission) :
  grantingAncestor userPermissions action segments n = Some e ->
  exists i, i < n /\
            findByPath userPermissions (parentPath segments i) = Some e /\
            includes (actions e) action = true.
Proof.
  induction n as [|k IH]; simpl; [discriminate|].
  destruct (findByPath userPermissions (parentPath segments k)) as [q|] eqn:Hq.
  - destruct (includes (actions q) action) eqn:Hact.
    + intros [= <-]. exists k. repeat split; [lia | exact Hq | exact Hact].
    + intros H. destruct (IH H) as (i & Hi & Hrest). exists i. split; [lia | exact Hrest].
  - intros H. destruct (IH H) as (i & Hi & Hrest). exists i. split; [lia | exact Hrest].
Qed.

Lemma grantingAncestor_exists (userPermissions : list UserPermission)
    (action : string) (segments : list string) (n i : nat) (e : UserPermission) :
  i < n ->
  findByPath userPermissions (parentPath segments i) = Some e ->
  includes (actions e) action = true ->
  exists e', grantingAncestor userPermissions action segments n = Some e'.
Proof.
  induction n as [|k IH]; intros Hi Hfind Hact; [lia|]. simpl.
  destruct (findByPath userPermissions (parentPath segments k)) as [q|] eqn:Hq.
  - destruct (includes (actions q) action) eqn:Hq'; [now exists q|].
    assert (i <> k) by (intros ->; congruence). apply IH; [lia | assumption..].
  - assert (i <> k) by (intros ->; congruence). apply IH; [lia | assumption..].
Qed.

(** X1. Exact match shadows everything else: when an entry sits at the
    requested path, the answer is the one that entry alone would give. *)
Theorem exact_match_shadows (userPermissions : list UserPermission)
    (path action : string) (stage workflowStage : option string)
    (e : UserPermission) :
  findByPath userPermissions path = Some e ->
  hasPermission userPermissions (request path action stage) workflowStage
  = hasPermission [e] (request path action stage) workflowStage.
Proof.
  intros Hfind.
  rewrite (hasPermission_exact userPermissions _ workflowStage e) by exact Hfind.
  symmetry. apply (hasPermission_exact [e]).
  destruct (findByPath_some _ _ _ Hfind) as [_ Hpath].
  unfold findByPath. simpl. now rewrite Hpath, String.eqb_refl.
Qed.

Lemma exact_match_shadows_witness :
  hasPermission [entry "/orders" ["READ"; "DELETE"] None None;
                 entry "/orders/form" ["READ"] None None]
                (request "/orders/form" "DELETE" None) None
  = hasPermission [entry "/orders/form" ["READ"] None None]
                  (request "/orders/form" "DELETE" None) None.
Proof.
  apply (exact_match_shadows _ "/orders/form" "DELETE" None None
           (entry "/orders/form" ["READ"] None None)).
  reflexivity.
Defined.

Lemma hasPermission_true_entry (userPermissions : list UserPermission)
    (path action : string) (stage workflowStage : option string) :
  hasPermission userPermissions (request path action stage) workflowStage
  = Return true ->
  exists e,
    In e userPermissions /\
    includes (actions e) action = true /\
    (resourcePath e = path \/
     exists i, i < length (pathSegments path) /\
               resourcePath e = parentPath (pathSegments path) i).
Proof.
  destruct (findByPath userPermissions path) as [e|] eqn:Hfind.
  - rewrite (hasPermission_exact userPermissions _ workflowStage e) by exact Hfind.
    simpl. intros H. exists e.
    destruct (findByPath_some _ _ _ Hfind) as [Hin Hpath].
    split; [exact Hin|]. split; [|now left].
    destruct (truthy_bool (isOverride e)).
    + now injection H.
    + now destruct (conclude_true _ _ H).
  - rewrite hasPermission_fallback by exact Hfind. simpl.
    destruct (grantingAncestor _ _ _ _) as [e|] eqn:Hanc; [|discriminate].
    intros _. destruct (grantingAncestor_index _ _ _ _ _ Hanc) as (i & Hi & Hf & Hact).
    destruct (findByPath_some _ _ _ Hf) as [Hin Hpath].
    exists e. split; [exact Hin|]. split; [exact Hact|].
    right. exists i. now split.
Qed.

(** X2. No grant without an entry: when the evaluator returns [true], some
    entry of the list names the action, and it sits at the requested path or
    at one of its ancestor paths. *)
Theorem grant_is_backed_by_entry (userPermissions : list UserPermission)
    (path action : string) (stage workflowStage : option string) :
  hasPermission userPermissions (request path action stage) workflowStage
  = Return true ->
  exists e,
    In e userPermissions /\
    includes (actions e) action = true /\
    (resourcePath e = path \/
     exists i, i < length (pathSegments path) /\
               resourcePath e = parentPath (pathSegments path) i).
Proof. apply hasPermission_true_entry. Qed.

Lemma grant_is_backed_by_entry_witness :
  exists e,
    In e [entry "/orders" ["READ"] None None] /\
    includes (actions e) "READ" = true /\
    (resourcePath e = "/orders/form" \/
     exists i, i < length (pathSegments "/orders/form") /\
               resourcePath e = parentPath (pathSegments "/orders/form") i).
Proof.
  apply (grant_is_backed_by_entry _ "/orders/form" "READ" None None).
  reflexivity.
Defined.

Lemma hasPermission_unstaged_true (userPermissions : list UserPermission)
    (path action : string) (stage workflowStage : option string) :
  hasPermission userPermissions (request path action stage) workflowStage
  = Return true ->
  hasPermission userPermissions (request path action None) None = Return true.
Proof.
  destruct (findByPath userPermissions path) as [e|] eqn:Hfind.
  - rewrite !(hasPermission_exact userPermissions _ _ e) by exact Hfind.
    simpl. destruct (truthy_bool (isOverride e)); [tauto|].
    intros H. destruct (conclude_true _ _ H) as [_ ->]. reflexivity.
  - rewrite !hasPermission_fallback by exact Hfind. simpl.
    destruct (grantingAncestor _ _ _ _) as [e|]; [|discriminate].
    destruct (hasOverride _ _ _); [discriminate|]. reflexivity.
Qed.

(** X3. A workflow stage only narrows: whatever is granted with a stage (in
    the request or as the third argument) is granted without any stage. *)
Theorem stage_only_narrows (userPermissions : list UserPermission)
    (path action : string) (stage workflowStage : option string) :
  hasPermission userPermissions (request path action stage) workflowStage
  = Return true ->
  hasPermission userPermissions (request path action None) None = Return true.
Proof. apply hasPermission_unstaged_true. Qed.

Lemma stage_only_narrows_witness :
  hasPermission
    [entry "/a" ["READ"] None
       (Some (Obj [("workflowRestrictions",
                    Obj [("draft", Obj [("allowedActions", strings ["READ"])])])]))]
    (request "/a" "READ" None) None
  = Return true.
Proof.
  apply (stage_only_narrows _ "/a" "READ" (Some "draft") None). reflexivity.
Defined.

Lemma hasPermission_unstaged_returns (userPermissions : list UserPermission)
    (path action : string) (stage workflowStage : option string) :
  truthy_str (or_else stage workflowStage) = false ->
  exists b,
    hasPermission userPermissions (request path action stage) workflowStage
    = Return b.
Proof.
  intros Hst.
  destruct (findByPath userPermissions path) as [e|] eqn:Hfind.
  - rewrite (hasPermission_exact userPermissions _ workflowStage e) by exact Hfind.
    simpl. destruct (truthy_bool (isOverride e)); [eexists; reflexivity|].
    rewrite workflowCheck_unstaged by exact Hst. eexists; reflexivity.
  - rewrite hasPermission_fallback by exact Hfind. simpl.
    destruct (grantingAncestor _ _ _ _) as [e|]; [|eexists; reflexivity].
    destruct (hasOverride _ _ _); [eexists; reflexivity|].
    rewrite workflowCheck_unstaged by exact Hst. eexists; reflexivity.
Qed.

(** X4. Without a workflow stage nothing is thrown: when neither the request
    nor the third argument carries a non-empty stage, the evaluator returns a
    boolean whatever the metadata of the entries holds. *)
Theorem unstaged_never_throws (userPermissions : list UserPermission)
    (path action : string) (stage workflowStage : option string) :
  truthy_str (or_else stage workflowStage) = false ->
  exists b,
    hasPermission userPermissions (request path action stage) workflowStage
    = Return b.
Proof. apply hasPermission_unstaged_returns. Qed.

Lemma unstaged_never_throws_witness :
  exists b,
    hasPermission
      [entry "/a" ["READ"] None
         (Some (Obj [("workflowRestrictions",
                      Obj [("draft", Obj [("restrictedActions", Num 5)])])]))]
      (request "/a" "READ" (Some "")) None
    = Return b.
Proof.
  apply unstaged_never_throws. reflexivity.
Defined.

(** *** The order of the entries *)

Lemma existsb_permutation {A : Type} (f : A -> bool) (l l' : list A) :
  Permutation l l' -> existsb f l = existsb f l'.
Proof.
  induction 1 as [|x l l' _ IH|x y l|l l' l'' _ IH1 _ IH2]; simpl.
  - reflexivity.
  - now rewrite IH.
  - now destruct (f x), (f y).
  - now rewrite IH1.
Qed.

Lemma findByPath_permutation (l l' : list UserPermission) (path : string) :
  Permutation l l' ->
  NoDup (map resourcePath l) ->
  findByPath l path = findByPath l' path.
Proof.
  intros Hperm Hnd.
  assert (Hnd' : NoDup (map resourcePath l')).
  { apply (Permutation_NoDup (l := map resourcePath l)); [|exact Hnd].
    now apply Permutation_map. }
  destruct (findByPath l path) as [e|] eqn:Hfind.
  - destruct (findByPath_some _ _ _ Hfind) as [Hin <-].
    symmetry. apply findByPath_unique; [exact Hnd'|].
    now apply (Permutation_in _ Hperm).
  - symmetry. apply findByPath_none. intros p Hp Hpath.
    unfold findByPath in Hfind.
    assert (Hin : In p l)
      by (apply (Permutation_in _ (Permutation_sym Hperm)); exact Hp).
    pose proof (find_none _ _ Hfind p Hin) as Hfalse. simpl in Hfalse.
    rewrite Hpath, String.eqb_refl in Hfalse. discriminate.
Qed.

Lemma climb_permutation (l l' : list UserPermission) (path action : string)
    (stage : option string) (segments : list string) (n : nat) :
  Permutation l l' ->
  NoDup (map resourcePath l) ->
  climb l path action stage segments n = climb l' path action stage segments n.
Proof.
  intros Hperm Hnd. induction n as [|i IH]; simpl; [reflexivity|].
  rewrite <- (findByPath_permutation l l' _ Hperm Hnd), IH.
  unfold hasOverride. now rewrite (existsb_permutation _ l l' Hperm).
Qed.

(** X5. The order of the entries does not matter when no two of them share a
    path: the evaluator answers the same on every rearrangement of such a
    list. *)
Theorem order_of_entries_is_irrelevant (l l' : list UserPermission)
    (params : PermissionCheckParams) (workflowStage : option string) :
  Permutation l l' ->
  NoDup (map resourcePath l) ->
  hasPermission l params workflowStage = hasPermission l' params workflowStage.
Proof.
  intros Hperm Hnd. unfold hasPermission.
  rewrite <- (findByPath_permutation l l' _ Hperm Hnd).
  destruct (findByPath l (pResourcePath params)); [reflexivity|].
  now apply climb_permutation.
Qed.

Lemma order_of_entries_is_irrelevant_witness :
  hasPermission [entry "/orders" ["READ"] None None;
                 entry "/orders/form" [] (Some true) None]
                (request "/orders/form" "READ" None) None
  = hasPermission [entry "/orders/form" [] (Some true) None;
                   entry "/orders" ["READ"] None None]
                  (request "/orders/form" "READ" None) None.
Proof.
  apply order_of_entries_is_irrelevant.
  - apply perm_swap.
  - simpl. constructor.
    + intros [H|[]]. discriminate H.
    + constructor; [intros [] | constructor].
Defined.

(** *** Paths without segments, and inheritance *)

Lemma onlySlashes_no_segments (path : string) :
  onlySlashes path = true -> pathSegments path = [].
Proof.
  unfold pathSegments, nonempty.
  induction path as [|c rest IH]; simpl; [reflexivity|].
  intros H. apply andb_true_iff in H. destruct H as [Hc Hrest].
  rewrite Hc. simpl. now apply IH.
Qed.

(** X6. A path without segments (the empty path, "/", "//", ...) has no
    ancestor to inherit from: it is denied unless an entry sits at exactly
    that path. *)
Theorem path_without_segments_is_denied (userPermissions : list UserPermission)
    (path action : string) (stage workflowStage : option string) :
  onlySlashes path = true ->
  (forall p, In p userPermissions -> resourcePath p <> path) ->
  hasPermission userPermissions (request path action stage) workflowStage
  = Return false.
Proof.
  intros Hslash Hno. unfold hasPermission. simpl.
  rewrite (findByPath_none userPermissions path Hno).
  now rewrite (onlySlashes_no_segments path Hslash).
Qed.

Lemma path_without_segments_is_denied_witness :
  hasPermission [entry "/orders" ["READ"] None None]
                (request "/" "READ" None) None
  = Return false.
Proof.
  apply path_without_segments_is_denied.
  - reflexivity.
  - intros p [<-|[]]. discriminate.
Defined.

(** X7. Inheritance: when no entry sits at the requested path, an entry at
    one of its ancestor paths names the action, no override entry below the
    request denies it, and either no stage is in force or no entry carries
    metadata, the evaluator returns [true]. *)
Theorem ancestor_grant_is_inherited (userPermissions : list UserPermission)
    (path action : string) (stage workflowStage : option string)
    (i : nat) (parent : UserPermission) :
  (forall p, In p userPermissions -> resourcePath p <> path) ->
  i < length (pathSegments path) ->
  findByPath userPermissions (parentPath (pathSegments path) i) = Some parent ->
  includes (actions parent) action = true ->
  hasOverride userPermissions path action = false ->
  truthy_str (or_else stage workflowStage) = false
  \/ (forall p, In p userPermissions -> metadata p = None) ->
  hasPermission userPermissions (request path action stage) workflowStage
  = Return true.
Proof.
  intros Hno Hi Hfind Hact Hdeny Hquiet.
  rewrite hasPermission_fallback by (apply findByPath_none; exact Hno).
  simpl.
  destruct (grantingAncestor_exists _ _ _ _ _ _ Hi Hfind Hact) as [e He].
  rewrite He, Hdeny.
  destruct Hquiet as [Hst|Hmeta].
  - now rewrite workflowCheck_unstaged.
  - rewrite workflowCheck_no_metadata; [reflexivity|].
    apply Hmeta. exact (proj1 (grantingAncestor_some _ _ _ _ _ He)).
Qed.

Lemma ancestor_grant_is_inherited_witness :
  hasPermission [entry "/orders" ["READ"] None None]
                (request "/orders/form/amount" "READ" (Some "draft")) None
  = Return true.
Proof.
  apply (ancestor_grant_is_inherited _ "/orders/form/amount" "READ"
           (Some "draft") None 0 (entry "/orders" ["READ"] None None)).
  - intros p [<-|[]]. discriminate.
  - simpl. lia.
  - reflexivity.
  - reflexivity.
  - reflexivity.
  - right. intros p [<-|[]]. reflexivity.
Defined.

(** ** Properties of the other exports of [rbacUtils.ts] *)

(** X8. [getResourcePermissions] and [hasPermission] agree on an entry's own
    path: where an entry sits at the path and it is an override, or no stage
    is in force, the action is granted exactly when
    [getResourcePermissions] lists it. *)
Theorem listed_actions_are_the_granted_ones (userPermissions : list UserPermission)
    (path action : string) (stage workflowStage : option string)
    (e : UserPermission) :
  findByPath userPermissions path = Some e ->
  isOverride e = Some true \/ truthy_str (or_else stage workflowStage) = false ->
  hasPermission userPermissions (request path action stage) workflowStage
  = Return (includes (getResourcePermissions userPermissions path) action).
Proof.
  intros Hfind Hcase.
  rewrite (hasPermission_exact userPermissions _ workflowStage e) by exact Hfind.
  unfold getResourcePermissions. rewrite Hfind. simpl.
  destruct Hcase as [->|Hst]; [reflexivity|].
  destruct (truthy_bool (isOverride e)); [reflexivity|].
  now rewrite workflowCheck_unstaged.
Qed.

Lemma listed_actions_are_the_granted_ones_witness :
  hasPermission [entry "/orders" ["READ"; "UPDATE"] None None]
                (request "/orders" "UPDATE" None) None
  = Return (includes (getResourcePermissions
                        [entry "/orders" ["READ"; "UPDATE"] None None] "/orders")
                     "UPDATE").
Proof.
  apply (listed_actions_are_the_granted_ones _ "/orders" "UPDATE" None None
           (entry "/orders" ["READ"; "UPDATE"] None None)).
  - reflexivity.
  - right. reflexivity.
Defined.

Lemma getWorkflowRestrictions_workflowCheck (userPermissions : list UserPermission)
    (path stage action : string) (e : UserPermission) :
  findByPath userPermissions path = Some e ->
  stage <> "" ->
  workflowCheck e (Some stage) action =
  match getWorkflowRestrictions userPermissions path stage with
  | Some restrictions => checkRestrictions restrictions action
  | None => Pass
  end.
Proof.
  intros Hfind Hne. unfold workflowCheck, getWorkflowRestrictions.
  rewrite Hfind. apply String.eqb_neq in Hne. rewrite Hne. simpl.
  destruct (get_opt (metadata e) "workflowRestrictions") as [wr|]; [|reflexivity].
  destruct (truthy wr); [|reflexivity].
  destruct (get wr stage) as [r|]; [|reflexivity].
  now destruct (truthy r).
Qed.

(** X9. [isActionRestrictedInWorkflow] and [hasPermission] agree on an entry
    that is not an override: called with the same stage, [hasPermission]
    grants the action exactly when the entry lists it and
    [isActionRestrictedInWorkflow] answers [false], and it throws exactly
    when that call throws. *)
Theorem restricted_actions_are_the_denied_ones
    (userPermissions : list UserPermission) (path action : string)
    (workflowStage : option string) (e : UserPermission) :
  findByPath userPermissions path = Some e ->
  truthy_bool (isOverride e) = false ->
  hasPermission userPermissions (request path action None) workflowStage
  = bind (isActionRestrictedInWorkflow userPermissions path action workflowStage)
         (fun restricted => Return (negb restricted && includes (actions e) action)).
Proof.
  intros Hfind Hov.
  rewrite (hasPermission_exact userPermissions _ workflowStage e) by exact Hfind.
  rewrite Hov. unfold isActionRestrictedInWorkflow.
  cbn [request pWorkflowStage pAction pResourcePath or_else truthy_str].
  destruct workflowStage as [stage|]; [|reflexivity].
  destruct (String.eqb_spec stage "") as [->|Hne]; [reflexivity|].
  cbn [negb bind].
  rewrite (getWorkflowRestrictions_workflowCheck userPermissions path stage
             action e Hfind Hne).
  destruct (getWorkflowRestrictions userPermissions path stage) as [r|];
    [|reflexivity].
  now destruct (checkRestrictions r action).
Qed.

Lemma restricted_actions_are_the_denied_ones_witness :
  hasPermission
    [entry "/orders" ["READ"; "SUBMIT"] None
       (Some (Obj [("workflowRestrictions",
                    Obj [("draft", Obj [("restrictedActions", strings ["SUBMIT"])])])]))]
    (request "/orders" "SUBMIT" None) (Some "draft")
  = Return false.
Proof.
  rewrite (restricted_actions_are_the_denied_ones _ "/orders" "SUBMIT" (Some "draft")
             (entry "/orders" ["READ"; "SUBMIT"] None
                (Some (Obj [("workflowRestrictions",
                             Obj [("draft",
                                   Obj [("restrictedActions", strings ["SUBMIT"])])])]))));
    reflexivity.
Defined.

(** X10. [isActionRestrictedInWorkflow] reads the entry at the exact path
    only: where there is none it answers [false], whatever restrictions the
    ancestors of the path carry. *)
Theorem restrictions_are_not_inherited (userPermissions : list UserPermission)
    (path action : string) (workflowStage : option string) :
  (forall p, In p userPermissions -> resourcePath p <> path) ->
  isActionRestrictedInWorkflow userPermissions path action workflowStage
  = Return false.
Proof.
  intros Hno. unfold isActionRestrictedInWorkflow, getWorkflowRestrictions.
  rewrite (findByPath_none userPermissions path Hno).
  destruct workflowStage as [stage|]; [|reflexivity].
  now destruct (negb (stage =? "")).
Qed.

(** The ancestor's restriction that [hasPermission] enforces on the child is
    not reported for the child. *)
Lemma restrictions_are_not_inherited_witness :
  isActionRestrictedInWorkflow
    [entry "/orders" ["SUBMIT"] None
       (Some (Obj [("workflowRestrictions",
                    Obj [("draft", Obj [("restrictedActions", strings ["SUBMIT"])])])]))]
    "/orders/form" "SUBMIT" (Some "draft")
  = Return false.
Proof.
  apply restrictions_are_not_inherited.
  intros p [<-|[]]. discriminate.
Defined.

Lemma filterThrowing_returns {T : Type} (f : T -> completion bool)
    (l kept : list T) :
  filterThrowing f l = Return kept ->
  kept = filter (fun x => match f x with Return true => true | _ => false end) l
  /\ forall x, In x l -> exists b, f x = Return b.
Proof.
  revert kept. induction l as [|x rest IH]; simpl; intros kept.
  - intros [= <-]. split; [reflexivity | intros x []].
  - destruct (f x) as [keep|] eqn:Hx; simpl; [|discriminate].
    destruct (filterThrowing f rest) as [kept'|] eqn:Hrest; simpl; [|discriminate].
    intros [= <-]. destruct (IH kept' eq_refl) as [-> Hall]. split.
    + now destruct keep.
    + intros y [<-|Hy]; [now exists keep | now apply Hall].
Qed.

(** X11. [filterResourcesByPermission] without an action keeps the visible
    resources: when it returns, it returned, in their order, exactly the
    resources for which [isResourceVisible] answers [true], and no check on
    any of the resources threw. *)
Theorem filtered_resources_are_the_visible_ones {T : Type} (pathOf : T -> string)
    (resources kept : list T) (userPermissions : list UserPermission)
    (workflowStage : option string) :
  filterResourcesByPermission pathOf resources userPermissions None workflowStage
  = Return kept ->
  kept = filter (fun r =>
                   match isResourceVisible userPermissions (pathOf r) workflowStage with
                   | Return true => true
                   | _ => false
                   end) resources
  /\ forall r, In r resources ->
               exists b, isResourceVisible userPermissions (pathOf r) workflowStage
                         = Return b.
Proof.
  unfold filterResourcesByPermission, isResourceVisible.
  apply filterThrowing_returns.
Qed.

Lemma filtered_resources_are_the_visible_ones_witness :
  ["/orders"; "/orders/form"]
  = filter (fun r =>
              match isResourceVisible [entry "/orders" ["READ"] None None] r None with
              | Return true => true
              | _ => false
              end) ["/orders"; "/users"; "/orders/form"]
  /\ forall r, In r ["/orders"; "/users"; "/orders/form"] ->
               exists b, isResourceVisible [entry "/orders" ["READ"] None None] r None
                         = Return b.
Proof.
  apply (filtered_resources_are_the_visible_ones (fun r : string => r)
           ["/orders"; "/users"; "/orders/form"] ["/orders"; "/orders/form"]
           [entry "/orders" ["READ"] None None] None).
  reflexivity.
Defined.

(** ** Properties of the guard component *)

Section GuardFacts.

Variable Node : Type.
Variable userPermissions : list UserPermission.
Variable workflowStage : option string.

(** X12. [hideOnDenied] changes nothing unless [disableOnDenied] is set:
    with [disableOnDenied] off the guard renders the same with and without
    it, and a guard with [hideOnDenied] on renders the same whatever
    [disableOnDenied] is. *)
Theorem hideOnDenied_is_the_default (path action : string)
    (children : Node) (fallback : option Node) (disable : bool) :
  RBACGuard Node userPermissions workflowStage
    {| gResourcePath := path; gAction := action; gChildren := children;
       gFallback := fallback; gHideOnDenied := true;
       gDisableOnDenied := disable |}
  = RBACGuard Node userPermissions workflowStage
      {| gResourcePath := path; gAction := action; gChildren := children;
         gFallback := fallback; gHideOnDenied := false;
         gDisableOnDenied := false |}.
Proof.
  unfold RBACGuard. simpl.
  destruct (hasPermission _ _ _) as [[|]|]; simpl; reflexivity.
Qed.

(** X13. The children are rendered as they are only with access: when the
    guard returns them bare, [hasPermission] granted the action, or the
    fallback is the very node passed as children. *)
Theorem children_need_access (props : GuardProps Node) :
  RBACGuard Node userPermissions workflowStage props
  = Return (Fragment (gChildren Node props)) ->
  hasPermission userPermissions
    (request (gResourcePath Node props) (gAction Node props) None) workflowStage
  = Return true
  \/ gFallback Node props = Some (gChildren Node props).
Proof.
  unfold RBACGuard.
  destruct (hasPermission _ _ _) as [[|]|]; simpl; [now left| |discriminate].
  destruct (gHideOnDenied Node props), (gDisableOnDenied Node props); simpl;
    try discriminate;
    destruct (gFallback Node props) as [n|]; simpl; try discriminate;
    intros [= ->]; now right.
Qed.

End GuardFacts.

Lemma children_need_access_witness :
  hasPermission [entry "/orders" ["READ"] None None]
                (request "/orders/form" "READ" None) None
  = Return true
  \/ (None : option string) = Some "form".
Proof.
  apply (children_need_access string [entry "/orders" ["READ"] None None] None
           {| gResourcePath := "/orders/form"; gAction := "READ";
              gChildren := "form"; gFallback := None;
              gHideOnDenied := true; gDisableOnDenied := false |}).
  reflexivity.
Defined.

(** ** Further properties of the permission compiler *)

Lemma NoDup_map_injective {A B : Type} (f : A -> B) (l : list A) (x y : A) :
  NoDup (map f l) -> In x l -> In y l -> f x = f y -> x = y.
Proof.
  induction l as [|a l IH]; simpl; intros Hnd Hx Hy Hxy; [contradiction|].
  inversion Hnd as [|? ? Hnotin Hrest]; subst.
  destruct Hx as [->|Hx], Hy as [->|Hy].
  - reflexivity.
  - exfalso. apply Hnotin. rewrite Hxy. now apply in_map.
  - exfalso. apply Hnotin. rewrite <- Hxy. now apply in_map.
  - now apply IH.
Qed.

Lemma NoDup_map_transfer {A B C : Type} (f : A -> B) (g : A -> C) (l : list A) :
  NoDup (map f l) ->
  (forall x y, In x l -> In y l -> g x = g y -> f x = f y) ->
  NoDup (map g l).
Proof.
  induction l as [|a l IH]; simpl; intros Hnd Hinj; [constructor|].
  inversion Hnd as [|? ? Hnotin Hrest]; subst. constructor.
  - intros Hin. apply in_map_iff in Hin. destruct Hin as (y & Hy & Hyl).
    apply Hnotin. rewrite <- (Hinj y a); [now apply in_map | now right | now left | exact Hy].
  - apply IH; [exact Hrest|]. intros x y Hx Hy. apply Hinj; now right.
Qed.

Lemma actionNames_in (acts : list Action) (permissions : list PermissionMatrix)
    (name : string) :
  In name (actionNames acts permissions) <->
  name <> "" /\
  exists p a, In p permissions /\
              actionMap_get acts (pmActionId p) = Some a /\
              ActionName a = name.
Proof.
  unfold actionNames, nonempty. rewrite filter_In, in_map_iff. split.
  - intros [(p & Hname & Hp) Hne]. apply negb_true_iff, String.eqb_neq in Hne.
    split; [exact Hne|].
    destruct (actionMap_get acts (pmActionId p)) as [a|] eqn:Ha; [|congruence].
    now exists p, a.
  - intros [Hne (p & a & Hp & Ha & Hname)]. split.
    + exists p. now rewrite Ha.
    + now apply negb_true_iff, String.eqb_neq.
Qed.

Lemma includes_in (l : list string) (x : string) :
  includes l x = true <-> In x l.
Proof.
  unfold includes. rewrite existsb_exists. split.
  - intros (y & Hy & Heq). apply String.eqb_eq in Heq. now subst.
  - intros H. exists x. split; [exact H | apply String.eqb_refl].
Qed.

Section CompilerMore.

Variable dateOf : string -> option Z.
Variable now : Z.
Variable jsonParse : string -> option value.
Variable resources : list Resource.
Variable acts : list Action.

Let valid := currentlyValid dateOf now.
Let compile := compileGroup dateOf now jsonParse resources acts.
Let forEach := forEachGroup dateOf now jsonParse resources acts.
Let built := entryOf dateOf now jsonParse resources acts.

Lemma resourceMap_get_in (k : Z) (r : Resource) :
  resourceMap_get resources k = Some r -> In r resources /\ ResourceId r = k.
Proof.
  unfold resourceMap_get. intros H. apply find_some in H.
  destruct H as [Hin Hid]. split; [now apply in_rev | now apply Z.eqb_eq].
Qed.

Lemma compileGroup_entry (ups ups' : list UserPermission)
    (g : Z * list PermissionMatrix) :
  compile ups g = Return ups' ->
  (ups' = ups /\
   (resourceMap_get resources (fst g) = None \/ filter valid (snd g) = []))
  \/ exists u, ups' = (ups ++ [u])%list /\ built g u.
Proof.
  unfold compile, compileGroup, built, entryOf. destruct g as [k ps]. simpl.
  destruct (resourceMap_get resources k) as [r|] eqn:Hr;
    [|intros [= <-]; left; split; [reflexivity | now left]].
  fold valid. destruct (filter valid ps) as [|first rest] eqn:Hv;
    [intros [= <-]; left; split; [reflexivity | now right]|].
  destruct (parseMetadata jsonParse (Metadata first)) as [meta|] eqn:Hp;
    [|discriminate].
  simpl. intros [= <-]. right. eexists. split; [reflexivity|].
  exists r, first, rest. simpl.
  repeat split; try reflexivity; try assumption.
  exact (proj2 (resourceMap_get_in k r Hr)).
Qed.

Lemma forEachGroup_built (gs : groups) (ups ups' : list UserPermission) :
  forEach gs ups = Return ups' ->
  exists new, ups' = (ups ++ new)%list /\ builtFor dateOf now jsonParse resources acts gs new.
Proof.
  unfold forEach. revert ups.
  induction gs as [|g rest IH]; intros ups; simpl.
  - intros [= <-]. exists []. now rewrite app_nil_r.
  - fold compile. destruct (compile ups g) as [ups1|] eqn:E; simpl; [|discriminate].
    intros Hrest. destruct (IH ups1 Hrest) as (new & -> & Hnew).
    destruct (compileGroup_entry ups ups1 g E) as [[-> Hskip]|(u & -> & Hu)].
    + exists new. split; [reflexivity | now left].
    + exists (u :: new). split; [now rewrite <- app_assoc|].
      right. now exists u, new.
Qed.

Lemma builtFor_in (gs : groups) (new : list UserPermission) (u : UserPermission) :
  builtFor dateOf now jsonParse resources acts gs new -> In u new -> exists g, In g gs /\ built g u.
Proof.
  revert new. induction gs as [|g rest IH]; simpl; intros new Hb Hin.
  - subst. contradiction.
  - destruct Hb as [[_ Hb]|(u0 & new' & -> & Hu0 & Hb)].
    + destruct (IH new Hb Hin) as (g' & Hg' & Hbuilt). exists g'. split; [now right | exact Hbuilt].
    + destruct Hin as [<-|Hin]; [exists g; split; [now left | exact Hu0]|].
      destruct (IH new' Hb Hin) as (g' & Hg' & Hbuilt). exists g'. split; [now right | exact Hbuilt].
Qed.

Lemma builtFor_has (gs : groups) (new : list UserPermission)
    (g : Z * list PermissionMatrix) :
  builtFor dateOf now jsonParse resources acts gs new -> In g gs ->
  resourceMap_get resources (fst g) <> None ->
  filter valid (snd g) <> [] ->
  exists u, In u new /\ built g u.
Proof.
  revert new. induction gs as [|g0 rest IH]; simpl; intros new Hb Hin Hres Hval;
    [contradiction|].
  destruct Hb as [[Hskip Hb]|(u0 & new' & -> & Hu0 & Hb)].
  - destruct Hin as [->|Hin]; [destruct Hskip; contradiction|].
    now apply IH.
  - destruct Hin as [->|Hin]; [exists u0; split; [now left | exact Hu0]|].
    destruct (IH new' Hb Hin Hres Hval) as (u & Hu & Hbuilt).
    exists u. split; [now right | exact Hbuilt].
Qed.

Lemma builtFor_NoDup (gs : groups) (new : list UserPermission) :
  builtFor dateOf now jsonParse resources acts gs new -> NoDup (map fst gs) -> NoDup (map resourceId new).
Proof.
  revert new. induction gs as [|g rest IH]; simpl; intros new Hb Hnd.
  - subst. constructor.
  - inversion Hnd as [|? ? Hnotin Hrest]; subst.
    destruct Hb as [[_ Hb]|(u0 & new' & -> & Hu0 & Hb)]; [now apply IH|].
    simpl. constructor; [|now apply IH].
    intros Hin. apply in_map_iff in Hin. destruct Hin as (u & Hid & Hu).
    destruct (builtFor_in rest new' u Hb Hu) as (g' & Hg' & Hbuilt).
    apply Hnotin.
    destruct Hu0 as (? & ? & ? & _ & _ & _ & _ & Hid0 & _).
    destruct Hbuilt as (? & ? & ? & _ & _ & _ & _ & Hid' & _).
    rewrite <- Hid0, <- Hid, Hid'. now apply in_map.
Qed.

Lemma builtFor_total (gs : groups) (ups : list UserPermission) :
  (forall g p s, In g gs -> In p (snd g) -> Metadata p = Some s -> s <> "" ->
                 jsonParse s <> None) ->
  exists ups', forEach gs ups = Return ups'.
Proof.
  unfold forEach. revert ups.
  induction gs as [|g rest IH]; intros ups Hok; simpl; [eexists; reflexivity|].
  assert (Hg : exists ups1,
             compileGroup dateOf now jsonParse resources acts ups g = Return ups1).
  { unfold compileGroup. destruct g as [k ps].
    destruct (resourceMap_get resources k); [|eexists; reflexivity].
    destruct (filter (currentlyValid dateOf now) ps) as [|first others] eqn:Hv;
      [eexists; reflexivity|].
    assert (Hin : In first ps).
    { apply (proj1 (filter_In (currentlyValid dateOf now) first ps)).
      rewrite Hv. now left. }
    unfold parseMetadata. destruct (Metadata first) as [s|] eqn:Hm;
      [|eexists; reflexivity].
    destruct (String.eqb_spec s "") as [->|Hne]; [eexists; reflexivity|]. simpl.
    destruct (jsonParse s) eqn:Hp; [eexists; reflexivity|].
    exfalso. apply (Hok (k, ps) first s); simpl; auto. }
  destruct Hg as [ups1 ->]. simpl. apply IH.
  intros g' p s Hg'. apply Hok. now right.
Qed.

End CompilerMore.

Section CompiledLists.

Variable dateOf : string -> option Z.
Variable now : Z.
Variable jsonParse : string -> option value.
Variable permissionMatrix : list PermissionMatrix.
Variable resources : list Resource.
Variable acts : list Action.

Let transform :=
  transformToUserPermissions dateOf now jsonParse permissionMatrix resources acts.
Let valid := currentlyValid dateOf now.
Let built := entryOf dateOf now jsonParse resources acts.

Lemma transform_built (role : Z) (ups : list UserPermission) :
  transform (Some role) = Return ups ->
  (role = 0%Z /\ ups = [])
  \/ (role <> 0%Z /\
      builtFor dateOf now jsonParse resources acts
        (groupByResource
           (filter (fun p => (pmRoleId p =? role)%Z && IsActive p) permissionMatrix))
        ups).
Proof.
  unfold transform, transformToUserPermissions.
  destruct (Z.eqb_spec role 0) as [->|Hne].
  - intros [= <-]. now left.
  - intros H. right. split; [exact Hne|].
    destruct (forEachGroup_built _ _ _ _ _ _ _ _ H) as (new & -> & Hnew).
    exact Hnew.
Qed.

Lemma group_is_groupOf (role : Z) (g : Z * list PermissionMatrix) :
  In g (groupByResource
          (filter (fun p => (pmRoleId p =? role)%Z && IsActive p) permissionMatrix)) ->
  g = (fst g, groupOf permissionMatrix role (fst g)).
Proof.
  destruct g as [k ps]. intros H. apply groupByResource_rows in H.
  simpl. now rewrite H.
Qed.

Lemma groupOf_is_group (role rid : Z) :
  groupOf permissionMatrix role rid <> [] ->
  In (rid, groupOf permissionMatrix role rid)
     (groupByResource
        (filter (fun p => (pmRoleId p =? role)%Z && IsActive p) permissionMatrix)).
Proof. intros H. now apply groupByResource_has. Qed.

Lemma compiled_entry (role : Z) (ups : list UserPermission) (u : UserPermission) :
  transform (Some role) = Return ups ->
  In u ups ->
  built (resourceId u, groupOf permissionMatrix role (resourceId u)) u.
Proof.
  intros Hret Hin.
  destruct (transform_built role ups Hret) as [[_ ->]|[_ Hb]]; [contradiction|].
  destruct (builtFor_in _ _ _ _ _ _ _ _ Hb Hin) as (g & Hg & Hbuilt).
  rewrite (group_is_groupOf role g Hg) in Hbuilt.
  assert (Hid : resourceId u = fst g).
  { destruct Hbuilt as (? & ? & ? & _ & _ & _ & _ & Hid & _). exact Hid. }
  now rewrite Hid.
Qed.

Lemma compiled_ids_NoDup (role : Z) (ups : list UserPermission) :
  transform (Some role) = Return ups -> NoDup (map resourceId ups).
Proof.
  intros Hret.
  destruct (transform_built role ups Hret) as [[_ ->]|[_ Hb]]; [constructor|].
  apply (builtFor_NoDup _ _ _ _ _ _ _ Hb).
  apply keys_fold_NoDup. constructor.
Qed.

Lemma compiled_paths_NoDup (role : Z) (ups : list UserPermission) :
  transform (Some role) = Return ups ->
  NoDup (map ResourcePath resources) ->
  NoDup (map resourcePath ups).
Proof.
  intros Hret Hpaths.
  apply (NoDup_map_transfer resourceId resourcePath);
    [exact (compiled_ids_NoDup role ups Hret)|].
  intros x y Hx Hy Hxy.
  destruct (compiled_entry role ups x Hret Hx)
    as (rx & ? & ? & Hrx & _ & _ & Hpx & _).
  destruct (compiled_entry role ups y Hret Hy)
    as (ry & ? & ? & Hry & _ & _ & Hpy & _).
  simpl in Hrx, Hry.
  destruct (resourceMap_get_in resources _ _ Hrx) as [Hinx Hidx].
  destruct (resourceMap_get_in resources _ _ Hry) as [Hiny Hidy].
  assert (rx = ry).
  { apply (NoDup_map_injective ResourcePath resources); try assumption.
    now rewrite <- Hpx, <- Hpy. }
  subst ry. now rewrite <- Hidx, <- Hidy.
Qed.

(** X14. What a compiled entry holds: every entry of a returned list belongs
    to the group of its resource id; path and level are those of the resource
    with that id, the actions are the resolvable, non-empty action names of
    all the active rows of the role for the resource, in matrix order, and
    override flag, window and parsed metadata are those of the first
    currently valid row. *)
Theorem compiled_entry_is_built_from_its_group (role : Z)
    (ups : list UserPermission) (u : UserPermission) :
  transformToUserPermissions dateOf now jsonParse permissionMatrix resources acts
    (Some role) = Return ups ->
  In u ups ->
  entryOf dateOf now jsonParse resources acts
    (resourceId u, groupOf permissionMatrix role (resourceId u)) u.
Proof. apply compiled_entry. Qed.

(** X15. No group is forgotten: when the compiler returns for a role other
    than 0, every resource id that resolves and has a currently valid active
    row of the role has an entry in the list. *)
Theorem valid_group_is_compiled (role rid : Z) (ups : list UserPermission) :
  transformToUserPermissions dateOf now jsonParse permissionMatrix resources acts
    (Some role) = Return ups ->
  role <> 0%Z ->
  resourceMap_get resources rid <> None ->
  filter (currentlyValid dateOf now) (groupOf permissionMatrix role rid) <> [] ->
  exists u, In u ups /\ resourceId u = rid.
Proof.
  intros Hret Hrole Hres Hval.
  destruct (transform_built role ups Hret) as [[-> _]|[_ Hb]]; [contradiction|].
  assert (Hg : groupOf permissionMatrix role rid <> [])
    by (intros E; rewrite E in Hval; now apply Hval).
  destruct (builtFor_has _ _ _ _ _ _ _ (rid, groupOf permissionMatrix role rid)
              Hb (groupOf_is_group role rid Hg) Hres Hval) as (u & Hu & Hbuilt).
  exists u. split; [exact Hu|].
  destruct Hbuilt as (? & ? & ? & _ & _ & _ & _ & Hid & _). exact Hid.
Qed.

(** X16. One entry per resource: a returned list never holds two entries
    with one resource id, and when the resource table has no two resources
    with one path, never two entries with one path. *)
Theorem compiled_entries_are_unique (role : Z) (ups : list UserPermission) :
  transformToUserPermissions dateOf now jsonParse permissionMatrix resources acts
    (Some role) = Return ups ->
  NoDup (map resourceId ups)
  /\ (NoDup (map ResourcePath resources) -> NoDup (map resourcePath ups)).
Proof.
  intros Hret. split;
    [exact (compiled_ids_NoDup role ups Hret)
    | exact (compiled_paths_NoDup role ups Hret)].
Qed.

(** X17. Only metadata can make the compiler throw: when every non-empty
    metadata text of the matrix is accepted by [JSON.parse], the compiler
    returns a list, for every role, resource table and action table. *)
Theorem compiler_returns_on_parseable_metadata (currentRoleId : option Z) :
  (forall p s, In p permissionMatrix -> Metadata p = Some s -> s <> "" ->
               jsonParse s <> None) ->
  exists ups,
    transformToUserPermissions dateOf now jsonParse permissionMatrix resources acts
      currentRoleId = Return ups.
Proof.
  intros Hok. unfold transformToUserPermissions.
  destruct currentRoleId as [role|]; [|eexists; reflexivity].
  destruct (role =? 0)%Z; [eexists; reflexivity|].
  apply builtFor_total. intros g p s Hg Hp. apply Hok.
  destruct g as [k ps]. apply groupByResource_rows in Hg. simpl in Hp. subst ps.
  apply filter_In in Hp. destruct Hp as [Hp _].
  apply filter_In in Hp. exact (proj1 Hp).
Qed.

(** X18. A valid row grants its action: when the compiler returns for a role
    other than 0 and no two resources share a path, every currently valid
    active row of the role whose resource and action resolve (the action to a
    non-empty name) makes the evaluator, asked without a stage, grant that
    action on that resource's path. *)
Theorem valid_row_grants_its_action (role : Z) (ups : list UserPermission)
    (row : PermissionMatrix) (r : Resource) (a : Action) :
  transformToUserPermissions dateOf now jsonParse permissionMatrix resources acts
    (Some role) = Return ups ->
  role <> 0%Z ->
  NoDup (map ResourcePath resources) ->
  In row permissionMatrix ->
  pmRoleId row = role ->
  IsActive row = true ->
  currentlyValid dateOf now row = true ->
  resourceMap_get resources (pmResourceId row) = Some r ->
  actionMap_get acts (pmActionId row) = Some a ->
  ActionName a <> "" ->
  hasPermission ups (request (ResourcePath r) (ActionName a) None) None
  = Return true.
Proof.
  intros Hret Hrole Hpaths Hin Hr Hactive Hvalid Hres Hact Hname.
  set (rid := pmResourceId row) in *.
  assert (Hgroup : In row (groupOf permissionMatrix role rid)).
  { unfold groupOf. apply filter_In. split.
    - apply filter_In. split; [exact Hin|]. rewrite Hr, Z.eqb_refl. exact Hactive.
    - apply Z.eqb_refl. }
  assert (Hval : In row (filter (currentlyValid dateOf now)
                                (groupOf permissionMatrix role rid)))
    by (apply filter_In; now split).
  destruct (transform_built role ups Hret) as [[-> _]|[_ Hb]]; [contradiction|].
  destruct (builtFor_has _ _ _ _ _ _ _ (rid, groupOf permissionMatrix role rid) Hb)
    as (u & Hu & r' & first & rest & Hr' & _ & _ & Hpath & _ & Hacts & _).
  - apply groupOf_is_group. intros E. rewrite E in Hgroup. contradiction.
  - simpl. congruence.
  - simpl. intros E. rewrite E in Hval. contradiction.
  - simpl in Hr', Hacts. rewrite Hres in Hr'. injection Hr' as <-.
    rewrite <- Hpath.
    rewrite (hasPermission_exact ups _ None u)
      by (apply findByPath_unique;
          [exact (compiled_paths_NoDup role ups Hret Hpaths) | exact Hu]).
    simpl.
    assert (Hinc : includes (actions u) (ActionName a) = true).
    { apply includes_in. rewrite Hacts. apply actionNames_in.
      split; [exact Hname|]. now exists row, a. }
    rewrite Hinc. now destruct (truthy_bool (isOverride u)).
Qed.

(** X19. No grant without a row: when the evaluator returns [true] on a list
    the compiler returned, the matrix holds an active row of the role whose
    action resolves to the requested action and whose resource resolves to a
    resource at the requested path or at one of its ancestor paths. *)
Theorem compiled_grant_comes_from_a_row (role : Z) (ups : list UserPermission)
    (path action : string) (stage workflowStage : option string) :
  transformToUserPermissions dateOf now jsonParse permissionMatrix resources acts
    (Some role) = Return ups ->
  hasPermission ups (request path action stage) workflowStage = Return true ->
  exists row r a,
    In row permissionMatrix /\
    pmRoleId row = role /\
    IsActive row = true /\
    resourceMap_get resources (pmResourceId row) = Some r /\
    actionMap_get acts (pmActionId row) = Some a /\
    ActionName a = action /\
    (ResourcePath r = path \/
     exists i, i < length (pathSegments path) /\
               ResourcePath r = parentPath (pathSegments path) i).
Proof.
  intros Hret Hgrant.
  destruct (hasPermission_true_entry ups path action stage workflowStage Hgrant)
    as (e & He & Hinc & Hwhere).
  destruct (compiled_entry role ups e Hret He)
    as (r & first & rest & Hr & _ & _ & Hpath & _ & Hacts & _).
  simpl in Hr, Hacts.
  apply includes_in in Hinc. rewrite Hacts in Hinc.
  apply actionNames_in in Hinc. destruct Hinc as [_ (row & a & Hrow & Ha & Hname)].
  unfold groupOf in Hrow. apply filter_In in Hrow. destruct Hrow as [Hrow Hrid].
  apply filter_In in Hrow. destruct Hrow as [Hin Hra].
  apply andb_true_iff in Hra. destruct Hra as [Hrole Hactive].
  apply Z.eqb_eq in Hrid, Hrole.
  exists row, r, a. rewrite Hrid, <- Hpath. repeat split; assumption.
Qed.

(** X20. No entry without a resource and a valid row: a returned list holds
    no entry for a resource id that does not resolve, nor for one all of whose
    active rows of the role are outside their validity window. *)
Theorem no_entry_without_resource_or_valid_row (role rid : Z)
    (ups : list UserPermission) (u : UserPermission) :
  transformToUserPermissions dateOf now jsonParse permissionMatrix resources acts
    (Some role) = Return ups ->
  resourceMap_get resources rid = None
  \/ filter (currentlyValid dateOf now) (groupOf permissionMatrix role rid) = [] ->
  In u ups ->
  resourceId u <> rid.
Proof.
  intros Hret Hskip Hu Hid.
  destruct (compiled_entry role ups u Hret Hu)
    as (r & first & rest & Hr & Hv & _).
  simpl in Hr, Hv. rewrite Hid in Hr, Hv.
  destruct Hskip as [Hnone|Hnil]; congruence.
Qed.

End CompiledLists.

(** The theorems above on the matrix with the expired DELETE row. *)

Lemma compiled_entry_is_built_from_its_group_witness :
  entryOf dateOf2020 january2026 rejectAll [ordersResource] readAndDelete
    (1%Z, groupOf expiredDeleteMatrix 1 1) compiledOrders.
Proof.
  apply (compiled_entry_is_built_from_its_group dateOf2020 january2026 rejectAll
           expiredDeleteMatrix [ordersResource] readAndDelete 1
           [compiledOrders] compiledOrders).
  - reflexivity.
  - now left.
Defined.

Lemma valid_group_is_compiled_witness :
  exists u, In u [compiledOrders] /\ resourceId u = 1%Z.
Proof.
  apply (valid_group_is_compiled dateOf2020 january2026 rejectAll
           expiredDeleteMatrix [ordersResource] readAndDelete 1 1 [compiledOrders]).
  - reflexivity.
  - discriminate.
  - vm_compute. discriminate.
  - vm_compute. discriminate.
Defined.

Lemma compiled_entries_are_unique_witness :
  NoDup (map resourceId [compiledOrders])
  /\ NoDup (map resourcePath [compiledOrders]).
Proof.
  destruct (compiled_entries_are_unique dateOf2020 january2026 rejectAll
              expiredDeleteMatrix [ordersResource] readAndDelete 1 [compiledOrders])
    as [Hids Hpaths].
  - reflexivity.
  - split; [exact Hids|]. apply Hpaths. simpl.
    constructor; [intros [] | constructor].
Defined.

Lemma compiler_returns_on_parseable_metadata_witness :
  exists ups,
    transformToUserPermissions dateOf2020 january2026 rejectAll
      expiredDeleteMatrix [ordersResource] readAndDelete (Some 1%Z) = Return ups.
Proof.
  apply compiler_returns_on_parseable_metadata.
  intros p s [<-|[<-|[]]]; discriminate.
Defined.

Lemma valid_row_grants_its_action_witness :
  hasPermission [compiledOrders] (request "/orders" "READ" None) None
  = Return true.
Proof.
  apply (valid_row_grants_its_action dateOf2020 january2026 rejectAll
           expiredDeleteMatrix [ordersResource] readAndDelete 1 [compiledOrders]
           (row 1 1 1 1 None None) ordersResource
           {| ActionId := 1; ActionName := "READ" |}).
  - reflexivity.
  - discriminate.
  - simpl. constructor; [intros [] | constructor].
  - now left.
  - reflexivity.
  - reflexivity.
  - reflexivity.
  - reflexivity.
  - reflexivity.
  - discriminate.
Defined.

Lemma compiled_grant_comes_from_a_row_witness :
  exists row r a,
    In row expiredDeleteMatrix /\
    pmRoleId row = 1%Z /\
    IsActive row = true /\
    resourceMap_get [ordersResource] (pmResourceId row) = Some r /\
    actionMap_get readAndDelete (pmActionId row) = Some a /\
    ActionName a = "READ" /\
    (ResourcePath r = "/orders/form" \/
     exists i, i < length (pathSegments "/orders/form") /\
               ResourcePath r = parentPath (pathSegments "/orders/form") i).
Proof.
  apply (compiled_grant_comes_from_a_row dateOf2020 january2026 rejectAll
           expiredDeleteMatrix [ordersResource] readAndDelete 1 [compiledOrders]
           "/orders/form" "READ" None None); reflexivity.
Defined.

Lemma no_entry_without_resource_or_valid_row_witness :
  resourceId compiledOrders <> 7%Z.
Proof.
  apply (no_entry_without_resource_or_valid_row dateOf2020 january2026 rejectAll
           expiredDeleteMatrix [ordersResource] readAndDelete 1 7
           [compiledOrders] compiledOrders).
  - reflexivity.
  - left. reflexivity.
  - now left.
Defined.

(** ** Properties of the hooks and of the debug view *)

Lemma filterThrowing_total {T : Type} (f : T -> completion bool) (l : list T) :
  (forall x, In x l -> exists b, f x = Return b) ->
  exists kept, filterThrowing f l = Return kept.
Proof.
  induction l as [|x rest IH]; intros Hall; simpl; [eexists; reflexivity|].
  destruct (Hall x (or_introl eq_refl)) as [b ->]. simpl.
  destruct IH as [kept ->]; [intros y Hy; apply Hall; now right|].
  simpl. eexists; reflexivity.
Qed.

(** X21. The actions [getWorkflowActions] reports for a stage are among
    those it reports when no stage is given and none is in the store, and
    that second call always returns. *)
Theorem workflow_actions_shrink_with_stage (userPermissions : list UserPermission)
    (workflowStage stage : option string) (path : string) (reported : list string) :
  getWorkflowActions userPermissions workflowStage path stage = Return reported ->
  exists unstaged,
    getWorkflowActions userPermissions None path None = Return unstaged
    /\ forall action, In action reported -> In action unstaged.
Proof.
  unfold getWorkflowActions, checkPermission. intros Hret.
  destruct (filterThrowing_returns _ _ _ Hret) as [-> _].
  destruct (filterThrowing_total
              (fun action =>
                 hasPermission userPermissions (request path action None)
                               (or_else (or_else None None) None))
              allActions) as [unstaged Hun].
  { intros action _. now apply hasPermission_unstaged_returns. }
  exists unstaged. split; [exact Hun|].
  destruct (filterThrowing_returns _ _ _ Hun) as [-> _].
  intros action Hin. apply filter_In in Hin. destruct Hin as [Hin Hgrant].
  apply filter_In. split; [exact Hin|].
  destruct (hasPermission userPermissions (request path action None)
              (or_else (or_else stage workflowStage) workflowStage))
    as [[|]|] eqn:E; try discriminate.
  change (or_else (or_else None None) None) with (@None string).
  now rewrite (hasPermission_unstaged_true _ _ _ _ _ E).
Qed.

Lemma workflow_actions_shrink_with_stage_witness :
  exists unstaged,
    getWorkflowActions
      [entry "/orders" ["READ"; "SUBMIT"] None
         (Some (Obj [("workflowRestrictions",
                      Obj [("draft", Obj [("restrictedActions", strings ["SUBMIT"])])])]))]
      None "/orders" None = Return unstaged
    /\ forall action, In action ["READ"] -> In action unstaged.
Proof.
  apply (workflow_actions_shrink_with_stage _ None (Some "draft") "/orders" ["READ"]).
  reflexivity.
Defined.

Lemma prefix_refl (s : string) : prefix s s = true.
Proof.
  induction s as [|c s IH]; simpl; [reflexivity|].
  destruct (ascii_dec c c); [exact IH | contradiction].
Qed.

Lemma prefix_empty (t : string) : prefix "" t = true.
Proof. now destruct t. Qed.

Lemma prefix_append (s t : string) : prefix s (s ++ t) = true.
Proof.
  induction s as [|c s IH]; simpl; [apply prefix_empty|].
  destruct (ascii_dec c c); [exact IH | contradiction].
Qed.

Lemma prefix_append_both (s a b : string) :
  prefix a b = true -> prefix (s ++ a) (s ++ b) = true.
Proof.
  intros H. induction s as [|c s IH]; simpl; [exact H|].
  destruct (ascii_dec c c); [exact IH | contradiction].
Qed.

Lemma prefix_join_firstn (segments : list string) (k : nat) :
  prefix (join "/" (firstn k segments)) (join "/" segments) = true.
Proof.
  revert k. induction segments as [|x rest IH]; intros k.
  - now rewrite firstn_nil.
  - destruct k as [|k]; [apply prefix_empty|].
    destruct rest as [|y rest'].
    + cbn [firstn]. rewrite firstn_nil. apply prefix_refl.
    + change (join "/" (x :: y :: rest'))
        with (x ++ "/" ++ join "/" (y :: rest')).
      destruct k as [|k].
      * apply prefix_append.
      * change (join "/" (firstn (S (S k)) (x :: y :: rest')))
          with (x ++ "/" ++ join "/" (firstn (S k) (y :: rest'))).
        apply prefix_append_both. apply (prefix_append_both "/"). apply IH.
Qed.

Lemma parentPath_is_prefix (path : string) (i : nat) :
  normalized path = path ->
  startsWith path (parentPath (pathSegments path) i) = true.
Proof.
  intros Hnorm. unfold startsWith, parentPath.
  rewrite <- Hnorm at 2. unfold normalized.
  apply (prefix_append_both "/"). apply prefix_join_firstn.
Qed.

(** X22. The debug view shows what grants: for a request path in normal
    form ("/" and segments joined by "/"), whenever [hasPermission] returns
    [true], [relevantPermissions] contains an entry that names the action. *)
Theorem relevant_permissions_show_the_grant (userPermissions : list UserPermission)
    (path action : string) (stage workflowStage : option string) :
  normalized path = path ->
  hasPermission userPermissions (request path action stage) workflowStage
  = Return true ->
  exists e, In e (relevantPermissions userPermissions path)
            /\ includes (actions e) action = true.
Proof.
  intros Hnorm Hgrant.
  destruct (hasPermission_true_entry _ _ _ _ _ Hgrant)
    as (e & He & Hinc & Hwhere).
  exists e. split; [|exact Hinc].
  unfold relevantPermissions. apply filter_In. split; [exact He|].
  destruct Hwhere as [->|(i & _ & ->)].
  - now rewrite String.eqb_refl.
  - rewrite (parentPath_is_prefix path i Hnorm). apply orb_true_r.
Qed.

Lemma relevant_permissions_show_the_grant_witness :
  exists e, In e (relevantPermissions [entry "/orders" ["READ"] None None;
                                       entry "/users" ["READ"] None None]
                                      "/orders/form")
            /\ includes (actions e) "READ" = true.
Proof.
  apply (relevant_permissions_show_the_grant _ "/orders/form" "READ" None None);
    reflexivity.
Defined.

(** ** Properties of [buildResourceHierarchy] *)

Lemma attach_fold (resources rest : list Resource) (h : Hierarchy) :
  rootResources (fold_left (attach resources) rest h)
  = (rootResources h ++ map ResourceId (filter isRoot rest))%list
  /\ forall k,
       children (fold_left (attach resources) rest h) k
       = (children h k ++
          match resourceMap_get resources k with
          | Some _ => map ResourceId (filter (isChildOf k) rest)
          | None => []
          end)%list.
Proof.
  revert h. induction rest as [|r rest IH]; intros h; simpl.
  - split; [now rewrite app_nil_r | intros k].
    destruct (resourceMap_get resources k); now rewrite app_nil_r.
  - destruct (IH (attach resources h r)) as [Hroots Hchildren].
    rewrite Hroots. split.
    + unfold attach, isRoot. destruct (parentOf r) as [p|]; simpl.
      * now destruct (resourceMap_get resources p).
      * now rewrite <- app_assoc.
    + intros k. rewrite Hchildren. unfold attach, isChildOf.
      destruct (parentOf r) as [p|]; simpl; [|reflexivity].
      destruct (Z.eqb_spec p k) as [->|Hne].
      * destruct (resourceMap_get resources k); simpl;
          [now rewrite Z.eqb_refl, <- app_assoc | reflexivity].
      * destruct (resourceMap_get resources p); simpl; [|reflexivity].
        destruct (Z.eqb_spec k p); [congruence | reflexivity].
Qed.

(** X23. Where [buildResourceHierarchy] puts the resources: the roots are,
    in list order, the resources without a truthy [ParentResourceId], and the
    children of a node are, in list order, the resources whose
    [ParentResourceId] is that node's id; an id that no resource carries has
    no children. *)
Theorem hierarchy_places_by_parent (resources : list Resource) :
  rootResources (buildResourceHierarchy resources)
  = map ResourceId (filter isRoot resources)
  /\ forall k,
       children (buildResourceHierarchy resources) k
       = match resourceMap_get resources k with
         | Some _ => map ResourceId (filter (isChildOf k) resources)
         | None => []
         end.
Proof.
  unfold buildResourceHierarchy.
  destruct (attach_fold resources resources
              {| rootResources := []; children := fun _ => [] |}) as [Hr Hc].
  split; [exact Hr | exact Hc].
Qed.

(** X24. Orphans are dropped: where the resource ids are distinct, a
    resource whose truthy [ParentResourceId] is no resource's id is neither a
    root nor anybody's child in the hierarchy built. *)
Theorem orphans_are_dropped (resources : list Resource) (r : Resource) (p : Z) :
  NoDup (map ResourceId resources) ->
  In r resources ->
  parentOf r = Some p ->
  resourceMap_get resources p = None ->
  ~ In (ResourceId r) (rootResources (buildResourceHierarchy resources))
  /\ forall k, ~ In (ResourceId r) (children (buildResourceHierarchy resources) k).
Proof.
  intros Hnd Hin Hparent Hmissing.
  destruct (attach_fold resources resources
              {| rootResources := []; children := fun _ => [] |}) as [Hr Hc].
  unfold buildResourceHierarchy. split.
  - rewrite Hr. simpl. intros H. apply in_map_iff in H.
    destruct H as (r' & Hid & Hr'). apply filter_In in Hr'.
    destruct Hr' as [Hin' Hroot].
    assert (r' = r) by (apply (NoDup_map_injective ResourceId resources); assumption).
    subst r'. unfold isRoot in Hroot. now rewrite Hparent in Hroot.
  - intros k. rewrite Hc. simpl.
    destruct (resourceMap_get resources k) eqn:Hk; [|intros []].
    intros H. apply in_map_iff in H.
    destruct H as (r' & Hid & Hr'). apply filter_In in Hr'.
    destruct Hr' as [Hin' Hchild].
    assert (r' = r) by (apply (NoDup_map_injective ResourceId resources); assumption).
    subst r'. unfold isChildOf in Hchild. rewrite Hparent in Hchild.
    apply Z.eqb_eq in Hchild. subst k. congruence.
Qed.

Lemma orphans_are_dropped_witness :
  ~ In 2%Z (rootResources (buildResourceHierarchy rootAndOrphan))
  /\ forall k, ~ In 2%Z (children (buildResourceHierarchy rootAndOrphan) k).
Proof.
  apply (orphans_are_dropped rootAndOrphan
           {| ResourceId := 2; ResourcePath := "/lost"; ResourceName := "Lost";
              ResourceType := "PAGE"; HierarchyLevel := 2;
              ParentResourceId := Some 9%Z |} 9).
  - simpl. constructor.
    + intros [H|[]]. discriminate H.
    + constructor; [intros [] | constructor].
  - right. now left.
  - reflexivity.
  - reflexivity.
Defined.

(** ** Properties of the slice *)

Section SliceFacts.

Variable dateOf : string -> option Z.
Variable now : Z.
Variable jsonParse : string -> option value.

Lemma reducer_recompiles (state state' : RBACState) (action : SliceAction) :
  recompiles action = true ->
  rbacReducer dateOf now jsonParse state action = Return state' ->
  inSync dateOf now jsonParse state'.
Proof.
  unfold inSync.
  destruct action; cbn [recompiles rbacReducer]; try discriminate;
    intros _ Hstep; try unfold matrixLoaded in Hstep.
  - destruct (transformToUserPermissions dateOf now jsonParse
                (stPermissionMatrix state) (stResources state) (stActions state)
                (Some payload)) as [ups|] eqn:E; simpl in Hstep; [|discriminate].
    injection Hstep as <-. exact E.
  - injection Hstep as <-. reflexivity.
  - destruct (transformToUserPermissions dateOf now jsonParse payload
                (stResources state) (stActions state)
                (stCurrentUserRoleId state)) as [ups|] eqn:E;
      simpl in Hstep; [|discriminate].
    injection Hstep as <-. exact E.
  - destruct (transformToUserPermissions dateOf now jsonParse payload
                (stResources state) (stActions state)
                (stCurrentUserRoleId state)) as [ups|] eqn:E;
      simpl in Hstep; [|discriminate].
    injection Hstep as <-. exact E.
Qed.

Lemma reducer_keeps_sync (state state' : RBACState) (action : SliceAction) :
  replacesTables action = false ->
  rbacReducer dateOf now jsonParse state action = Return state' ->
  inSync dateOf now jsonParse state ->
  inSync dateOf now jsonParse state'.
Proof.
  intros Htables Hstep Hsync.
  destruct (recompiles action) eqn:Hre;
    [exact (reducer_recompiles state state' action Hre Hstep)|].
  unfold inSync in *.
  destruct action; simpl in Htables, Hre, Hstep; try discriminate;
    injection Hstep as Hstate; subst state'; exact Hsync.
Qed.

(** X25. The reducer compiles where it should: after [setCurrentUserRole],
    after a permission matrix has arrived (from the API or the demo data) and
    after [resetRBAC], the state's [userPermissions] are what
    [transformToUserPermissions] gives for the state's own matrix, resources,
    actions and role. *)
Theorem recompiling_actions_synchronise (state state' : RBACState)
    (action : SliceAction) :
  recompiles action = true ->
  rbacReducer dateOf now jsonParse state action = Return state' ->
  inSync dateOf now jsonParse state'.
Proof. apply reducer_recompiles. Qed.

(** X26. The reducer keeps the state in step: if [userPermissions] are the
    compilation of the state's matrix, tables and role, they still are after
    every action other than the three that replace the resource or the action
    table ([fetchResources], [fetchActions] and [fetchSimpleDemoData]
    fulfilled), which leave [userPermissions] as they were. *)
Theorem sync_is_kept (state state' : RBACState) (action : SliceAction) :
  replacesTables action = false ->
  rbacReducer dateOf now jsonParse state action = Return state' ->
  inSync dateOf now jsonParse state ->
  inSync dateOf now jsonParse state'.
Proof. apply reducer_keeps_sync. Qed.

End SliceFacts.

Lemma recompiling_actions_synchronise_witness :
  inSync dateOf2020 january2026 rejectAll
    {| stRoles := []; stResources := [ordersResource]; stActions := readAndDelete;
       stPermissionMatrix := expiredDeleteMatrix;
       stUserPermissions := [compiledOrders];
       stCurrentUserRoleId := Some 1%Z; stWorkflowStage := None;
       stIsLoading := false; stError := None |}.
Proof.
  apply (recompiling_actions_synchronise dateOf2020 january2026 rejectAll
           {| stRoles := []; stResources := [ordersResource];
              stActions := readAndDelete; stPermissionMatrix := [];
              stUserPermissions := []; stCurrentUserRoleId := Some 1%Z;
              stWorkflowStage := None; stIsLoading := true; stError := None |}
           _ (fetchPermissionMatrix_fulfilled expiredDeleteMatrix));
    reflexivity.
Defined.

Lemma sync_is_kept_witness :
  inSync dateOf2020 january2026 rejectAll
    {| stRoles := []; stResources := [ordersResource]; stActions := readAndDelete;
       stPermissionMatrix := expiredDeleteMatrix;
       stUserPermissions := [compiledOrders];
       stCurrentUserRoleId := Some 1%Z; stWorkflowStage := Some "draft";
       stIsLoading := false; stError := None |}.
Proof.
  apply (sync_is_kept dateOf2020 january2026 rejectAll
           {| stRoles := []; stResources := [ordersResource];
              stActions := readAndDelete; stPermissionMatrix := expiredDeleteMatrix;
              stUserPermissions := [compiledOrders];
              stCurrentUserRoleId := Some 1%Z;
              stWorkflowStage := None; stIsLoading := false; stError := None |}
           _ (setWorkflowStage "draft"));
    reflexivity.
Defined.
